(** * Water-quality dashboard: a shallow embedding of [app.py]

    The dashboard is a Streamlit script over a hosted database.  What is
    embedded here is the bookkeeping the script does itself: the access
    check, the site registry with its fallback, the name mapping, the chart
    preprocessing and click resolution, the entry form with its staged
    save, and the two-click delete.

    The script's ambient state is made explicit: the per-session dictionary
    [st.session_state] is a [gmap string value], the hosted database is a
    record of tables, and the remote calls of the handlers of the first
    part are recorded in a trace.  A handler is a function from a world to
    an outcome and a new world. *)

From Stdlib Require Import QArith.
From stdpp Require Import gmap strings list pretty.
Close Scope Q_scope.

(** ** Stored data *)

(** The seven numeric columns of [water_quality], in the order of the
    [parameters] list of [view_data]. *)
Inductive param :=
  | DissolvedOxygenMg | DissolvedOxygenSat | Hardness | Alkalinity
  | Ph | Temperature | Flow.

#[global] Instance param_eq_dec : EqDecision param.
Proof. solve_decision. Defined.

Definition parameters : list param :=
  [DissolvedOxygenMg; DissolvedOxygenSat; Hardness; Alkalinity; Ph; Temperature; Flow].

Definition param_col (p : param) : string :=
  match p with
  | DissolvedOxygenMg => "dissolved_oxygen_mg"
  | DissolvedOxygenSat => "dissolved_oxygen_sat"
  | Hardness => "hardness"
  | Alkalinity => "alkalinity"
  | Ph => "ph"
  | Temperature => "temperature"
  | Flow => "flow"
  end.

(** The dictionary written to and read from [water_quality], without its
    surrogate key.  A numeric cell is a rational or null ([None]); dates
    travel as text. *)
Record wq_data := WqData {
  site : string;
  date : string;
  user_id : string;
  notes : option string;
  dissolved_oxygen_mg : option Q;
  dissolved_oxygen_sat : option Q;
  hardness : option Q;
  alkalinity : option Q;
  ph : option Q;
  temperature : option Q;
  flow : option Q
}.

Record wq_row := WqRow { row_id : Z; row_data : wq_data }.

(** [row[param_col]] *)
Definition cell (p : param) (d : wq_data) : option Q :=
  match p with
  | DissolvedOxygenMg => dissolved_oxygen_mg d
  | DissolvedOxygenSat => dissolved_oxygen_sat d
  | Hardness => hardness d
  | Alkalinity => alkalinity d
  | Ph => ph d
  | Temperature => temperature d
  | Flow => flow d
  end.

(** The two columns of [sites] that [get_sites] reads, and the two columns
    of [pending_admins] that [is_admin] filters on. *)
Record site_row := SiteRow { full_name : string; short_name : string }.
Record admin_row := AdminRow { email : string; status : string }.

(** ** The hosted database

    A table that does not exist is [None].  [fault] stands for every other
    reason a remote call can raise (network, permission, rejected write):
    while it is set, each call raises with that text.  [next_id] is the
    surrogate key the store assigns to the next inserted row. *)
Record database := Database {
  fault : option string;
  water_quality : option (list wq_row);
  sites : option (list site_row);
  pending_admins : option (list admin_row);
  next_id : Z
}.

Definition set_water_quality (rows : list wq_row) (d : database) : database :=
  Database (fault d) (Some rows) (sites d) (pending_admins d) (next_id d).

Definition bump_next_id (d : database) : database :=
  Database (fault d) (water_quality d) (sites d) (pending_admins d) (next_id d + 1).

(** The remote calls the modelled handlers issue. *)
Inductive db_call :=
  | SelectApprovedAdmin (e : string)
  | SelectSites
  | SelectWqBySiteDate (s d : string)
  | InsertWq (d : wq_data)
  | UpdateWq (i : Z) (d : wq_data)
  | DeleteWq (i : Z).

Definition is_mutation (c : db_call) : bool :=
  match c with
  | InsertWq _ | UpdateWq _ _ | DeleteWq _ => true
  | _ => false
  end.

(** ** Session state and the world *)

(** What the script stages under the key [pending_wq_save]. *)
Record pending_save := PendingSave {
  data : wq_data;
  existing_id : option Z;
  selected_site : string;
  selected_date : string
}.

Inductive value :=
  | VBool (b : bool)
  | VStr (s : string)
  | VInt (z : Z)
  | VPending (p : pending_save).

(** Python truthiness of a stored value; a staged dictionary always has
    its four keys, so it is truthy. *)
Definition truthy (v : value) : bool :=
  match v with
  | VBool b => b
  | VStr s => negb (String.eqb s "")
  | VInt z => negb (z =? 0)%Z
  | VPending _ => true
  end.

Inductive notice :=
  | Info (s : string) | Success (s : string) | Warning (s : string) | Error (s : string).

Record world := World {
  session : gmap string value;
  db : database;
  trace : list db_call;
  notices : list notice
}.

Definition with_session (f : gmap string value → gmap string value) (w : world) : world :=
  World (f (session w)) (db w) (trace w) (notices w).

(** ** Handlers

    A handler either returns, raises an exception, or ends the script run
    through [st.rerun()], which no [except Exception] clause catches. *)
Inductive outcome (A : Type) :=
  | Ok (a : A)
  | Raise (e : string)
  | Rerun.
Arguments Ok {A} a.
Arguments Raise {A} e.
Arguments Rerun {A}.

Definition M (A : Type) : Type := world → outcome A * world.

#[global] Instance M_ret : MRet M := λ A a w, (Ok a, w).
#[global] Instance M_bind : MBind M := λ A B k m w,
  match m w with
  | (Ok a, w') => k a w'
  | (Raise e, w') => (Raise e, w')
  | (Rerun, w') => (Rerun, w')
  end.

(** [try: m except Exception as e: ...], with the handler applied by the
    caller to the [inl] case. *)
Definition try_ {A} (m : M A) : M (string + A) := λ w,
  match m w with
  | (Ok a, w') => (Ok (inr a), w')
  | (Raise e, w') => (Ok (inl e), w')
  | (Rerun, w') => (Rerun, w')
  end.

(** [st.rerun()] *)
Definition rerun : M unit := λ w, (Rerun, w).

Definition say (n : notice) : M unit := λ w,
  (Ok (), World (session w) (db w) (trace w) (notices w ++ [n])).

Definition session_get (k : string) : M (option value) := λ w, (Ok (session w !! k), w).
Definition session_set (k : string) (v : value) : M unit := λ w,
  (Ok (), with_session (insert k v) w).
Definition session_pop (k : string) : M unit := λ w,
  (Ok (), with_session (delete k) w).

(** [st.session_state.get(k, False)] used as a condition. *)
Definition session_truthy (k : string) : M bool :=
  v ← session_get k; mret (from_option truthy false v).

(** [.execute()]: the call is recorded; it raises under a fault or when
    [run] does, and otherwise commits the database [run] returns. *)
Definition execute {A} (c : db_call) (run : database → string + A * database) : M A := λ w,
  let w' := World (session w) (db w) (trace w ++ [c]) (notices w) in
  match fault (db w) with
  | Some e => (Raise e, w')
  | None =>
      match run (db w) with
      | inl e => (Raise e, w')
      | inr (a, d') => (Ok a, World (session w) d' (trace w ++ [c]) (notices w))
      end
  end.

(** [supabase.table(name)]: a query against a table that does not exist
    raises; otherwise [query] runs on its rows. *)
Definition table {X A} (name : string) (t : option (list X)) (query : list X → A)
    : string + A :=
  match t with
  | None => inl ("relation " +:+ name +:+ " does not exist")
  | Some rows => inr (query rows)
  end.

(** [supabase.table('pending_admins').select("email").eq('email', e).eq('status', 'approved')] *)
Definition select_approved_admin (e : string) : M (list admin_row) :=
  execute (SelectApprovedAdmin e) (λ d,
    table "pending_admins" (pending_admins d) (λ rows,
      (filter (λ r, email r = e ∧ status r = "approved") rows, d))).

(** [supabase.table('sites').select("*")] *)
Definition select_sites : M (list site_row) :=
  execute SelectSites (λ d, table "sites" (sites d) (λ rows, (rows, d))).

(** [supabase.table('water_quality').select("*").eq('site', s).eq('date', dt)] *)
Definition select_wq_by_site_date (s dt : string) : M (list wq_row) :=
  execute (SelectWqBySiteDate s dt) (λ d,
    table "water_quality" (water_quality d) (λ rows,
      (filter (λ r, site (row_data r) = s ∧ date (row_data r) = dt) rows, d))).

(** [supabase.table('water_quality').insert(data)]: one row is appended
    under the next surrogate key. *)
Definition insert_wq (dat : wq_data) : M unit :=
  execute (InsertWq dat) (λ d,
    table "water_quality" (water_quality d) (λ rows,
      ((), bump_next_id (set_water_quality (rows ++ [WqRow (next_id d) dat]) d)))).

(** [supabase.table('water_quality').update(data).eq('id', i)]: every row
    with that key gets the new columns; no row is added or removed. *)
Definition update_wq (i : Z) (dat : wq_data) : M unit :=
  execute (UpdateWq i dat) (λ d,
    table "water_quality" (water_quality d) (λ rows,
      ((), set_water_quality
             ((λ r, if decide (row_id r = i) then WqRow i dat else r) <$> rows) d))).

(** [supabase.table('water_quality').delete().eq('id', i)] *)
Definition delete_wq (i : Z) : M unit :=
  execute (DeleteWq i) (λ d,
    table "water_quality" (water_quality d) (λ rows,
      ((), set_water_quality (filter (λ r, row_id r ≠ i) rows) d))).

(** ** Access control and the site registry *)

Section Config.

(** The administrator address read from the environment at start-up. *)
Variable ADMIN_EMAIL : string.

Definition is_admin (e : string) : M bool :=
  if decide (e = ADMIN_EMAIL) then mret true
  else
    r ← try_ (approved_response ← select_approved_admin e;
              mret (bool_decide (approved_response ≠ [])));
    match r with
    | inr true => mret true
    | inr false | inl _ => mret false
    end.

End Config.

Definition default_sites : list (string * string) :=
  [("Blue River at Silverthorne Pavilion- 196", "Blue River");
   ("Snake River KSS- 52", "Snake River");
   ("Swan River Reach A- 1007", "Swan River")].

Definition get_sites : M (list (string * string)) :=
  r ← try_ select_sites;
  match r with
  | inr ((_ :: _) as response_data) =>
      mret ((λ s, (full_name s, short_name s)) <$> response_data)
  | inr [] => mret default_sites
  | inl _ => mret default_sites
  end.

(** ** Display names

    A Python dictionary built from pairs keeps the last value given for a
    key, and [update] overrides what is there. *)
Definition dict_update (m : gmap string string) (pairs : list (string * string))
    : gmap string string :=
  foldl (λ acc kv, <[kv.1 := kv.2]> acc) m pairs.

Definition legacy_short_names : list (string * string) :=
  [("Site 1", "Blue River"); ("Site 2", "Snake River"); ("Site 3", "Swan River")].

(** [site_mapping] as both [view_data] and [edit_data] build it from the
    result of [get_sites()]. *)
Definition site_mapping (sites : list (string * string)) : gmap string string :=
  dict_update (dict_update ∅ sites) legacy_short_names.

(** [view_data]: [df['site'].map(site_mapping)] followed by
    [fillna(df['site'])]. *)
Definition view_data_site_abbrev (mapping : gmap string string) (s : string) : string :=
  default s (mapping !! s).

(** [edit_data]: [df['site'].map(site_mapping)] alone; an unmapped value
    becomes NaN, here [None]. *)
Definition edit_data_site_display (mapping : gmap string string) (s : string)
    : option string :=
  mapping !! s.

(** ** Chart preprocessing *)

(** The columns of the data frame that the chart code of [view_data]
    uses: [id], [site], [date], [site_abbrev] and the plotted column. *)
Record df_row := DfRow {
  df_id : Z;
  df_site : string;
  df_date : string;
  df_site_abbrev : string;
  df_value : option Q
}.

Definition frame (mapping : gmap string string) (p : param) (rows : list wq_row)
    : list df_row :=
  (λ r, DfRow (row_id r) (site (row_data r)) (date (row_data r))
              (view_data_site_abbrev mapping (site (row_data r)))
              (cell p (row_data r))) <$> rows.

(** [Series.unique()]: distinct values in order of first appearance. *)
Fixpoint unique {A} `{EqDecision A} (l : list A) : list A :=
  match l with
  | [] => []
  | x :: l' => x :: filter (λ y, y ≠ x) (unique l')
  end.

Definition zero_not_meaningful (p : param) : bool :=
  bool_decide (param_col p ∈
    ["dissolved_oxygen_mg"; "dissolved_oxygen_sat"; "hardness"; "alkalinity"; "ph"]).

(** [site_data.loc[site_data[param_col] == 0, param_col] = float('nan')] on one cell. *)
Definition blank_zero (v : option Q) : option Q :=
  match v with
  | Some q => if Qeq_bool q 0 then None else Some q
  | None => None
  end.

(** One turn of the loop over [df['site'].unique()]: the rows of that site
    get their zeros blanked and are written back. *)
Definition blank_site_zeros (s : string) (df : list df_row) : list df_row :=
  (λ r, if decide (df_site r = s)
        then DfRow (df_id r) (df_site r) (df_date r) (df_site_abbrev r)
                   (blank_zero (df_value r))
        else r) <$> df.

Definition df_processed (mapping : gmap string string) (p : param) (rows : list wq_row)
    : list df_row :=
  let df := frame mapping p rows in
  if zero_not_meaningful p
  then foldl (λ acc s, blank_site_zeros s acc) df (unique (df_site <$> df))
  else df.

(** What the chart shows for one stored cell: the plotted column of the
    processed frame at that row. *)
Definition rendered (p : param) (v : option Q) : option Q :=
  if zero_not_meaningful p then blank_zero v else v.

(** Dates arrive as ISO text, whose order as text is the order in time;
    [sort_values('date')] is taken as a stable insertion sort. *)
Definition date_leb (a b : string) : bool := String.leb a b.

Fixpoint insert_by {A} (leb : A → A → bool) (x : A) (l : list A) : list A :=
  match l with
  | [] => [x]
  | y :: l' => if leb x y then x :: y :: l' else y :: insert_by leb x l'
  end.

Definition sort_by {A} (leb : A → A → bool) (l : list A) : list A :=
  foldr (insert_by leb) [] l.

Definition group_key (r : df_row) : string * string * string :=
  (df_site r, df_site_abbrev r, df_date r).

Definition group_key_leb (a b : string * string * string) : bool :=
  match String.compare a.1.1 b.1.1 with
  | Lt => true
  | Gt => false
  | Eq =>
      match String.compare a.1.2 b.1.2 with
      | Lt => true
      | Gt => false
      | Eq => String.leb a.2 b.2
      end
  end.

(** [agg 'first']: the first value of the group that is not null. *)
Fixpoint first_valid {A} (l : list (option A)) : option A :=
  match l with
  | [] => None
  | Some a :: _ => Some a
  | None :: l' => first_valid l'
  end.

(** [df_param]: sorted by date, then one row per [(site, site_abbrev, date)]
    group, groups in key order, each column taking its first value. *)
Definition df_param (df : list df_row) : list df_row :=
  let sorted := sort_by (λ a b, date_leb (df_date a) (df_date b)) df in
  let keys := sort_by group_key_leb (unique (group_key <$> sorted)) in
  omap (λ k,
      match filter (λ r, group_key r = k) sorted with
      | (r :: _) as g =>
          Some (DfRow (df_id r) k.1.1 k.2 k.1.2 (first_valid (df_value <$> g)))
      | [] => None
      end) keys.

(** The points of the curve drawn for one legend entry: [px.line] with
    [color='site_abbrev'] puts the rows of [df_param] with that
    abbreviation on one curve, in frame order. *)
Definition curve_points (abbrev : string) (df : list df_row) : list df_row :=
  filter (λ r, df_site_abbrev r = abbrev) (df_param df).

(** Following the wording of the specification for what a curve shows: the
    rows of one site in time order, one point per (site, date), the first
    encountered row standing for its duplicates. *)
Fixpoint first_per_site_date (l : list df_row) : list df_row :=
  match l with
  | [] => []
  | r :: l' =>
      r :: filter (λ r', ¬ (df_site r' = df_site r ∧ df_date r' = df_date r))
                  (first_per_site_date l')
  end.

Definition deduplicated_series (abbrev : string) (df : list df_row) : list df_row :=
  first_per_site_date (filter (λ r, df_site_abbrev r = abbrev) df).

(** ** Chart clicks *)

Record clicked_point := ClickedPoint {
  pointIndex : option nat;
  curveNumber : option nat
}.

(** [strftime('%m/%d/%Y')] of a timestamp parsed from ISO text. *)
Definition us_of_iso (d : string) : string :=
  String.substring 5 2 d +:+ "/" +:+ String.substring 8 2 d +:+ "/" +:+ String.substring 0 4 d.

Definition raise {A} (e : string) : M A := λ w, (Raise e, w).

(** The click handling of [view_data] for one chart, given the processed
    frame of that chart and what [plotly_events] returned. *)
Definition view_data_click (mapping : gmap string string) (processed : list df_row)
    (clicked_points : list clicked_point) : M unit :=
  match clicked_points with
  | [] => mret ()
  | point :: _ =>
      let curve_number := default 0 (curveNumber point) in
      let unique_sites := unique (df_site_abbrev <$> processed) in
      if decide (curve_number < length unique_sites) then
        let clicked_site_abbrev := default "" (unique_sites !! curve_number) in
        let site_data :=
          filter (λ r, df_site_abbrev r = clicked_site_abbrev) processed in
        match pointIndex point with
        | None => raise "TypeError: '<' not supported between 'NoneType' and 'int'"
        | Some point_index =>
            if decide (point_index < length site_data) then
              match site_data !! point_index with
              | None => mret ()
              | Some clicked_row =>
                  session_set "clicked_site" (VStr (df_site clicked_row));;
                  session_set "clicked_date" (VStr (us_of_iso (df_date clicked_row)));;
                  session_set "clicked_id" (VInt (df_id clicked_row));;
                  say (Success ("Selected: "
                    +:+ default (df_site clicked_row) (mapping !! df_site clicked_row)
                    +:+ " - " +:+ us_of_iso (df_date clicked_row)
                    +:+ " | Go to 'Add or Edit Data' tab to edit"))
              end
            else mret ()
        end
      else mret ()
  end.

(** The record id a click leaves in session state, if any. *)
Definition clicked_id_after (mapping : gmap string string) (processed : list df_row)
    (clicked_points : list clicked_point) (w : world) : option value :=
  session (view_data_click mapping processed clicked_points w).2 !! "clicked_id".

(** ** The entry form of [dashboard] *)

(** The value of [st.date_input]. *)
Record calendar_date := CalendarDate { year : N; month : N; day : N }.

Definition pad (width : nat) (n : N) : string :=
  let digits := pretty n in
  String.concat "" (replicate (width - String.length digits) "0") +:+ digits.

(** [strftime('%Y-%m-%d')] and [strftime('%m/%d/%Y')] *)
Definition strftime_iso (d : calendar_date) : string :=
  pad 4 (year d) +:+ "-" +:+ pad 2 (month d) +:+ "-" +:+ pad 2 (day d).
Definition strftime_us (d : calendar_date) : string :=
  pad 2 (month d) +:+ "/" +:+ pad 2 (day d) +:+ "/" +:+ pad 4 (year d).

(** [site_name_mapping.get(selected_site, selected_site)] with the mapping
    from full names to the legacy tokens the table stores. *)
Definition site_name_mapping : gmap string string :=
  dict_update ∅
    [("Blue River at Silverthorne Pavilion- 196", "Site 1");
     ("Snake River KSS- 52", "Site 2");
     ("Swan River Reach A- 1007", "Site 3")].

Definition db_site_name (selected : string) : string :=
  default selected (site_name_mapping !! selected).

(** Lines 925-942: when no record was loaded from a chart click, look one
    up by site and date; the first row found is the one edited. *)
Definition dashboard_lookup (existing_data : option wq_row) (selected : string)
    (selected_day : option calendar_date) : M (option wq_row) :=
  match existing_data, negb (String.eqb selected ""), selected_day with
  | None, true, Some d =>
      r ← try_ (response_data ← select_wq_by_site_date (db_site_name selected)
                                                       (strftime_iso d);
                match response_data with
                | found :: _ => say (Info "Editing existing data entry");; mret (Some found)
                | [] => say (Info "Creating new data entry");; mret None
                end);
      match r with
      | inr found => mret found
      | inl e => say (Error ("Error checking for existing data: " +:+ e));; mret None
      end
  | _, _, _ => mret existing_data
  end.

(** One numeric input with its N/A checkbox, as submitted. *)
Record number_field := NumberField { widget : Q; not_available : bool }.

Record form_inputs := FormInputs {
  field : param → number_field;
  notes_text : string
}.

(** The local variable a field leaves behind: [None] under N/A, else the
    number the input holds. *)
Definition entered (f : number_field) : option Q :=
  if not_available f then None else Some (widget f).

(** Lines 1125-1174: the payload built from the selections and the
    fields; each measurement key receives the field's local variable, a
    number or null. *)
Definition build_payload (user selected : string) (d : calendar_date)
    (form : form_inputs) : wq_data :=
  WqData
    (db_site_name selected)
    (strftime_iso d)
    user
    (if String.eqb (notes_text form) "" then None else Some (notes_text form))
    (entered (field form DissolvedOxygenMg))
    (entered (field form DissolvedOxygenSat))
    (entered (field form Hardness))
    (entered (field form Alkalinity))
    (entered (field form Ph))
    (entered (field form Temperature))
    (entered (field form Flow)).

(** Lines 1121-1183: the submit button stages the payload together with
    the id of the record being edited, if one was loaded. *)
Definition dashboard_submit (user : string) (existing : option wq_row)
    (selected : string) (selected_day : option calendar_date) (form : form_inputs)
    : M unit :=
  match selected_day with
  | None => say (Error "Please select a date before submitting.")
  | Some d =>
      session_set "pending_wq_save"
        (VPending (PendingSave (build_payload user selected d form)
                               (row_id <$> existing) selected (strftime_us d)));;
      rerun
  end.

(** What the submit button leaves staged, if anything. *)
Definition staged_after (m : M unit) (w : world) : option value :=
  session (m w).2 !! "pending_wq_save".

Inductive button := ConfirmSave | Cancel | NoButton.

(** [if existing_id_local:] *)
Definition id_truthy (i : option Z) : bool :=
  match i with
  | Some z => negb (z =? 0)%Z
  | None => false
  end.

(** Lines 1211-1218: update the known record or insert a new one. *)
Definition store_call (pending : pending_save) : M string :=
  if id_truthy (existing_id pending)
  then update_wq (default 0%Z (existing_id pending)) (data pending);;
       mret "Data updated successfully!"
  else insert_wq (data pending);;
       mret "Data saved successfully!".

(** Lines 1207-1231: the body of the [try] under the confirm button. *)
Definition commit (pending : pending_save) : M unit :=
  success_message ← store_call pending;
  session_set "success_message" (VStr success_message);;
  session_set "data_submitted" (VBool true);;
  session_pop "pending_wq_save";;
  rerun.

(** Lines 1186-1240: the confirmation step, given the button pressed in
    this run. *)
Definition dashboard_confirmation (clicked : button) : M unit :=
  staged ← session_get "pending_wq_save";
  match staged with
  | Some (VPending pending) =>
      say (Warning "Confirm saving the following changes:");;
      match clicked with
      | ConfirmSave =>
          r ← try_ (commit pending);
          match r with
          | inr u => mret u
          | inl e => say (Error ("Error submitting data: " +:+ e))
          end
      | Cancel => session_pop "pending_wq_save";; rerun
      | NoButton => mret ()
      end
  | Some v => if truthy v then raise "TypeError" else mret ()
  | None => mret ()
  end.

(** The whole path of one entry: look up, submit, confirm. *)
Definition dashboard_save (user selected : string) (selected_day : calendar_date)
    (form : form_inputs) : M unit := λ w,
  let '(found, w1) := dashboard_lookup None selected (Some selected_day) w in
  let existing := match found with Ok e => e | _ => None end in
  let '(_, w2) := dashboard_submit user existing selected (Some selected_day) form w1 in
  dashboard_confirmation ConfirmSave w2.

(** ** The record list of [edit_data] *)

Definition confirm_delete_key (i : Z) : string := "confirm_delete_" +:+ pretty i.

(** Lines 169-178: the delete button of the row with id [i]. *)
Definition delete_click (i : Z) : M unit :=
  armed ← session_truthy (confirm_delete_key i);
  if (armed : bool)
  then delete_wq i;; say (Success "Data deleted!");; rerun
  else session_set (confirm_delete_key i) (VBool true);;
       say (Warning "Click Delete again to confirm");;
       rerun.

(** The same button under the [try] that encloses the body of
    [edit_data]. *)
Definition edit_data_delete (i : Z) : M unit :=
  r ← try_ (delete_click i);
  match r with
  | inr u => mret u
  | inl e => say (Error ("Error loading data: " +:+ e))
  end.

(** The mutating calls among those recorded. *)
Definition mutations (w : world) : list db_call := filter (λ c, is_mutation c = true) (trace w).

(** ** Sample data *)

Definition admins_db (admins : option (list admin_row)) : database :=
  Database None (Some []) None admins 1.

Definition fresh_world (d : database) : world := World ∅ d [] [].

(** A winter reading: ice-cold water, no flow. *)
Definition january_row : wq_row :=
  WqRow 1 (WqData "Site 1" "2024-01-15" "volunteer-7" None
                  (Some (12 # 1)%Q) (Some (85 # 1)%Q) (Some (120 # 1)%Q)
                  (Some (90 # 1)%Q) (Some (15 # 2)%Q) (Some 0%Q) (Some 0%Q)).

(** A store holding the winter reading, and a form with every box
    unticked except flow. *)
Definition winter_world : world :=
  World ∅ (Database None (Some [january_row]) None None 2) [] [].

Definition unreachable_world (staged : pending_save) : world :=
  World {["pending_wq_save" := VPending staged]}
        (Database (Some "connection refused") (Some [january_row]) None None 2) [] [].

Definition sample_form : form_inputs :=
  FormInputs (λ p, NumberField (7 # 1)%Q (bool_decide (p = Flow))) "low water".

Definition sample_day : calendar_date := CalendarDate 2024 1 15.

(** Three stored rows of one site, the first two for the same day. *)
Definition duplicated_rows : list wq_row :=
  [ january_row;
    WqRow 2 (WqData "Site 1" "2024-01-15" "volunteer-9" None
                    (Some (11 # 1)%Q) (Some (80 # 1)%Q) None None
                    (Some (7 # 1)%Q) (Some (1 # 1)%Q) (Some (3 # 1)%Q));
    WqRow 3 (WqData "Site 1" "2024-02-15" "volunteer-7" None
                    (Some (10 # 1)%Q) (Some (78 # 1)%Q) None None
                    (Some (8 # 1)%Q) (Some (2 # 1)%Q) (Some (5 # 1)%Q)) ].

(** ** Auxiliary states used in the statements *)

(** A frame row with the zero of its plotted cell blanked. *)
Definition blank_row (r : df_row) : df_row :=
  DfRow (df_id r) (df_site r) (df_date r) (df_site_abbrev r) (blank_zero (df_value r)).

(** The world once the confirmation step has shown its warning. *)
Definition after_warning (w : world) : world :=
  World (session w) (db w) (trace w)
        (notices w ++ [Warning "Confirm saving the following changes:"]).

(** * The remaining handlers

    The handlers below issue remote calls that the trace above has no name
    for.  They go through [request], which raises and commits exactly as
    [execute] does and leaves the trace alone; what these handlers do to
    the tables is stated on the tables. *)

Definition request {A} (run : database → string + A * database) : M A := λ w,
  match fault (db w) with
  | Some e => (Raise e, w)
  | None =>
      match run (db w) with
      | inl e => (Raise e, w)
      | inr (a, d') => (Ok a, World (session w) d' (trace w) (notices w))
      end
  end.

Definition set_sites (rows : list site_row) (d : database) : database :=
  Database (fault d) (water_quality d) (Some rows) (pending_admins d) (next_id d).

Definition set_pending_admins (rows : list admin_row) (d : database) : database :=
  Database (fault d) (water_quality d) (sites d) (Some rows) (next_id d).

(** The [except] clause shared by the handlers that report an error and go
    on: [st.error(f"{prefix}{str(e)}")]. *)
Definition report (prefix : string) (m : M unit) : M unit :=
  r ← try_ m;
  match r with
  | inr u => mret u
  | inl e => say (Error (prefix +:+ e))
  end.

(** ** The success notice of the entry tab *)

(** Lines 858-863: shown when [data_submitted] is set, then cleared. *)
Definition show_success : M unit :=
  submitted ← session_truthy "data_submitted";
  if (submitted : bool)
  then message ← session_get "success_message";
       say (Success (match message with Some (VStr s) => s | _ => "" end));;
       session_set "data_submitted" (VBool false);;
       session_pop "success_message"
  else mret ().

(** ** Hand-off of a chart click to the entry tab *)

(** The mapping of lines 889-893, from legacy tokens to full names. *)
Definition full_names_of_legacy : gmap string string :=
  dict_update ∅
    [("Site 1", "Blue River at Silverthorne Pavilion- 196");
     ("Site 2", "Snake River KSS- 52");
     ("Site 3", "Swan River Reach A- 1007")].

Definition full_site_name (stored : string) : string :=
  default stored (full_names_of_legacy !! stored).

(** A loop over [enumerate(l)] that keeps the first index whose item
    passes the test and breaks. *)
Fixpoint first_index {A} (test : A → bool) (l : list A) : option nat :=
  match l with
  | [] => None
  | x :: l' => if test x then Some 0 else S <$> first_index test l'
  end.

(** Lines 896-900, with the initial value 0 of line 874. *)
Definition site_index_of (full : string) (temp_site_options : list string) : nat :=
  default 0 (first_index (λ site_option, bool_decide (full = site_option))
                         temp_site_options).

(** [supabase.table('water_quality').select("*").eq('id', i)] *)
Definition select_wq_by_id (i : Z) : M (list wq_row) :=
  request (λ d, table "water_quality" (water_quality d) (λ rows,
    (filter (λ r, row_id r = i) rows, d))).

(** What the entry tab starts from: the record being edited, if any, the
    preselected site, and the preselected date when it is not today's. *)
Record prefill := Prefill {
  existing_data : option wq_row;
  default_site_index : nat;
  default_date : option string
}.

Definition no_prefill : prefill := Prefill None 0 None.

(** Lines 878-915.  Only the script writes [clicked_id], always an
    integer; any other truthy value would make the query raise. *)
Definition dashboard_handoff (temp_site_options : list string) : M prefill :=
  clicked ← session_get "clicked_id";
  if from_option truthy false clicked
  then
    say (Info "📍 Data point selected from graph - loading for editing...");;
    r ← try_ (response_data ←
                match clicked with
                | Some (VInt i) => select_wq_by_id i
                | _ => raise "invalid input syntax for type bigint"
                end;
              match response_data with
              | found :: _ =>
                  say (Success ("✅ Editing: "
                                +:+ full_site_name (site (row_data found))
                                +:+ " - " +:+ us_of_iso (date (row_data found))));;
                  mret (Prefill (Some found)
                          (site_index_of (full_site_name (site (row_data found)))
                                         temp_site_options)
                          (Some (date (row_data found))))
              | [] => mret no_prefill
              end);
    loaded ← match r with
             | inr p => mret p
             | inl e => say (Error ("Error loading selected data: " +:+ e));;
                        mret no_prefill
             end;
    session_pop "clicked_id";;
    session_pop "clicked_site";;
    session_pop "clicked_date";;
    mret loaded
  else mret no_prefill.

(** A chart click followed by the next rendering of the entry tab. *)
Definition click_then_handoff (mapping : gmap string string) (processed : list df_row)
    (clicked_points : list clicked_point) (temp_site_options : list string)
    : M prefill := λ w,
  dashboard_handoff temp_site_options
    (view_data_click mapping processed clicked_points w).2.

(** ** The edit form of the record list *)

Definition editing_key (i : Z) : string := "editing_data_" +:+ pretty i.

(** Lines 165-167 and 376-379: the edit button and the cancel button of
    the form. *)
Definition edit_click (i : Z) : M unit :=
  session_set (editing_key i) (VBool true);; rerun.
Definition edit_cancel (i : Z) : M unit :=
  session_set (editing_key i) (VBool false);; rerun.

(** Lines 190-196: the site preselected in the form. *)
Definition current_site_idx (mapping : gmap string string)
    (registry : list (string * string)) (row_site : string) : nat :=
  default 0 (first_index
    (λ entry, bool_decide (row_site = entry.1)
              || (bool_decide (row_site ∈ ["Site 1"; "Site 2"; "Site 3"])
                  && bool_decide (mapping !! row_site = Some entry.2)))
    registry).

Record edit_form := EditForm {
  new_site : string;
  new_date : calendar_date;
  edit_field : param → number_field;
  edit_notes : string
}.

(** The [update_data] of lines 351-362 applied to one stored row: every
    column but [id] and [user_id] is replaced. *)
Definition apply_update_data (f : edit_form) (r : wq_row) : wq_row :=
  WqRow (row_id r)
    (WqData (db_site_name (new_site f))
            (strftime_iso (new_date f))
            (user_id (row_data r))
            (Some (edit_notes f))
            (entered (edit_field f DissolvedOxygenMg))
            (entered (edit_field f DissolvedOxygenSat))
            (entered (edit_field f Hardness))
            (entered (edit_field f Alkalinity))
            (entered (edit_field f Ph))
            (entered (edit_field f Temperature))
            (entered (edit_field f Flow))).

(** [supabase.table('water_quality').update(update_data).eq('id', i)] *)
Definition update_wq_columns (i : Z) (f : edit_form) : M unit :=
  request (λ d, table "water_quality" (water_quality d) (λ rows,
    ((), set_water_quality
           ((λ r, if decide (row_id r = i) then apply_update_data f r else r) <$> rows)
           d))).

(** Lines 341-374: the save button of the form. *)
Definition edit_save (i : Z) (f : edit_form) : M unit :=
  update_wq_columns i f;;
  say (Success "Data updated successfully!");;
  session_set (editing_key i) (VBool false);;
  rerun.

(** The same button under the [try] that encloses the body of
    [edit_data]. *)
Definition edit_data_save (i : Z) (f : edit_form) : M unit :=
  report "Error loading data: " (edit_save i f).

(** Two delete clicks on the same record, one script run each. *)
Definition delete_twice (i : Z) (w : world) : world :=
  (edit_data_delete i (edit_data_delete i w).2).2.

(** ** Adding a site *)

(** The text fields of the form at lines 565-578; the numeric columns are
    not among those the registry reads. *)
Record site_form := SiteForm {
  new_full_name : string;
  new_short_name : string;
  new_description : string
}.

(** [supabase.table('sites').insert({...})] *)
Definition insert_site (f : site_form) : M unit :=
  request (λ d, table "sites" (sites d) (λ rows,
    ((), set_sites (rows ++ [SiteRow (new_full_name f) (new_short_name f)]) d))).

Definition filled (s : string) : bool := negb (String.eqb s "").

(** Lines 580-600. *)
Definition add_new_site (f : site_form) : M unit :=
  if filled (new_full_name f) && filled (new_short_name f) && filled (new_description f)
  then report "Error adding site: "
         (insert_site f;;
          say (Success ("✅ Added new monitoring site: " +:+ new_short_name f
                        +:+ " to database!"));;
          rerun)
  else say (Error "Please fill in both fields").

(** ** Adding an administrator *)

(** [needle in hay] on text. *)
Fixpoint contains (needle hay : string) : bool :=
  String.prefix needle hay
  || match hay with
     | EmptyString => false
     | String _ hay' => contains needle hay'
     end.

(** [supabase.table('pending_admins').insert({'email': e, 'status': 'approved', ...})].
    [refusal] is the answer of the store to this one insert when it turns
    it down on its own (a duplicate key, an insert policy, a transient
    error) although the store is up and the table exists: the text of the
    exception, or [None] when the row is accepted. *)
Definition insert_approved_admin (refusal : option string) (e : string) : M unit :=
  request (λ d,
    match refusal with
    | Some reason => inl reason
    | None =>
        table "pending_admins" (pending_admins d) (λ rows,
          ((), set_pending_admins (rows ++ [AdminRow e "approved"]) d))
    end).

(** [supabase.table('pending_admins').select("*").eq('email', e)] *)
Definition select_admin_by_email (e : string) : M (list admin_row) :=
  request (λ d, table "pending_admins" (pending_admins d) (λ rows,
    (filter (λ r, email r = e) rows, d))).

(** [supabase.table('pending_admins').update({'status': 'approved', ...}).eq('email', e)] *)
Definition approve_admin_by_email (e : string) : M unit :=
  request (λ d, table "pending_admins" (pending_admins d) (λ rows,
    ((), set_pending_admins
           ((λ r, if decide (email r = e) then AdminRow (email r) "approved" else r)
              <$> rows) d))).

(** Lines 1270-1328.  [sign_up] is the answer of the authentication
    service to the request: [None] when the account was created, the text
    of the exception otherwise.  [refusal] is the answer of the store to
    the insert into [pending_admins], should the run come to it. *)
Definition create_admin_account (sign_up refusal : option string)
    (admin_email admin_password confirm_password : string) : M unit :=
  if negb (filled admin_email) || negb (filled admin_password)
  then say (Error "Please fill in all fields")
  else if negb (String.eqb admin_password confirm_password)
  then say (Error "Passwords don't match!")
  else
    match sign_up with
    | None =>
        try_ (insert_approved_admin refusal admin_email);;
        say (Success ("✅ Admin account created successfully for " +:+ admin_email));;
        say (Info "They can now log in with the provided credentials.")
    | Some e =>
        if contains "User already registered" e
        then report "User exists but couldn't add to admin list: "
               (existing_admin ← select_admin_by_email admin_email;
                match existing_admin with
                | _ :: _ =>
                    approve_admin_by_email admin_email;;
                    say (Success ("✅ " +:+ admin_email
                                  +:+ " admin status updated successfully!"))
                | [] =>
                    insert_approved_admin refusal admin_email;;
                    say (Success ("✅ " +:+ admin_email
                                  +:+ " added to admin list successfully!"))
                end;;
                say (Info "They can now log in with their existing credentials."))
        else say (Error ("Error creating admin account: " +:+ e))
    end.

(** ** The header of the public page *)

Inductive header_button := SiteInfoButton | StaffLoginButton | NoHeaderButton.

(** [if k not in st.session_state: st.session_state[k] = False] *)
Definition session_init (k : string) : M unit :=
  v ← session_get k;
  match v with
  | Some _ => mret ()
  | None => session_set k (VBool false)
  end.

(** [st.session_state[k] = not st.session_state[k]] *)
Definition session_toggle (k : string) : M unit :=
  v ← session_get k;
  match v with
  | Some x => session_set k (VBool (negb (truthy x)))
  | None => raise ("KeyError: " +:+ k)
  end.

(** Lines 1370-1381, given the button pressed in this run. *)
Definition header (pressed : header_button) : M unit :=
  session_init "show_login";;
  session_init "show_site_info";;
  match pressed with
  | SiteInfoButton =>
      session_toggle "show_site_info";; session_set "show_login" (VBool false)
  | StaffLoginButton =>
      session_toggle "show_login";; session_set "show_site_info" (VBool false)
  | NoHeaderButton => mret ()
  end.

(** A visit: one script run per button pressed. *)
Definition header_runs (presses : list header_button) (w : world) : world :=
  foldl (λ acc pressed, (header pressed acc).2) w presses.

(** [st.session_state.get(k, False)] as a condition, read off a world. *)
Definition shown (k : string) (w : world) : bool :=
  from_option truthy false (session w !! k).

(** ** Statements about saving *)

(** The row filter of the lookup at lines 932-934. *)
Definition matches_selection (selected : string) (d : calendar_date) (r : wq_row) : Prop :=
  site (row_data r) = db_site_name selected ∧ date (row_data r) = strftime_iso d.

#[global] Instance matches_selection_dec selected d r :
  Decision (matches_selection selected d r).
Proof. unfold matches_selection. apply _. Defined.


(** A save during which the store changes between the lookup and the
    confirmation: the lookup runs against [w], the confirmation against
    [later]. *)
Definition dashboard_save_across (user selected : string) (d : calendar_date)
    (form : form_inputs) (w : world) (later : database) : world :=
  let '(found, w1) := dashboard_lookup None selected (Some d) w in
  let existing := match found with Ok e => e | _ => None end in
  let '(_, w2) := dashboard_submit user existing selected (Some d) form w1 in
  (dashboard_confirmation ConfirmSave
     (World (session w2) later (trace w2) (notices w2))).2.

(** The rendering of the entry tab that follows a confirmed save. *)
Definition confirm_then_render (w : world) : world :=
  (show_success (dashboard_confirmation ConfirmSave w).2).2.

(** The form of lines 1271-1274 as it has to be filled for an account to
    be requested. *)
Definition valid_admin_form (admin_email admin_password confirm_password : string)
    : Prop :=
  filled admin_email = true ∧ filled admin_password = true
  ∧ admin_password = confirm_password.


(** ** Statements about the chart *)

(** The columns of a frame row that the zero blanking must not touch. *)
Definition df_identity (r : df_row) : Z * string * string * string :=
  (df_id r, df_site r, df_date r, df_site_abbrev r).

(** ** Statements about the header *)

(** The session once lines 1370-1373 have run. *)
Definition initialized (s : gmap string value) : gmap string value :=
  let s1 := if s !! "show_login" is Some _ then s
            else <["show_login" := VBool false]> s in
  if s1 !! "show_site_info" is Some _ then s1
  else <["show_site_info" := VBool false]> s1.

(** Both panels of the public page open at once. *)
Definition both_panels (w : world) : bool :=
  shown "show_login" w && shown "show_site_info" w.

(** ** More sample data *)

(** A store holding the three rows with the duplicate, and a session in
    which the second point of the first curve was clicked. *)
Definition duplicated_world : world :=
  World ∅ (Database None (Some duplicated_rows) None None 4) [] [].

Definition second_point : clicked_point := ClickedPoint (Some 1) (Some 0).

Definition february_row : wq_row :=
  WqRow 3 (WqData "Site 1" "2024-02-15" "volunteer-7" None
                  (Some (10 # 1)%Q) (Some (78 # 1)%Q) None None
                  (Some (8 # 1)%Q) (Some (2 # 1)%Q) (Some (5 # 1)%Q)).

Definition sample_edit : edit_form :=
  EditForm "Snake River KSS- 52" sample_day
           (λ p, NumberField (4 # 1)%Q (bool_decide (p = Hardness))) "".

Definition tenmile : site_form :=
  SiteForm "Tenmile Creek at Frisco" "Tenmile Creek" "Below the marina".

Definition empty_registry_world : world :=
  World ∅ (Database None (Some []) (Some []) (Some []) 1) [] [].

(** A session in which the delete of record 1 is confirmed, over a store
    that refuses connections. *)
Definition armed_unreachable_world : world :=
  World {[confirm_delete_key 1 := VBool true]}
        (Database (Some "connection refused") (Some [january_row]) None None 2) [] [].

(** The options of the site selector under the hard-coded registry. *)
Definition default_options : list string := fst <$> default_sites.



(** * Properties *)

(** ** Lists *)

Lemma filter_none {A} (P : A → Prop) `{∀ x, Decision (P x)} (l : list A) :
  (∀ x, x ∈ l → ¬ P x) → filter P l = [].
Proof.
  intros Hnone. destruct (filter P l) as [|x l'] eqn:Hf; [done|].
  assert (Hx : x ∈ filter P l) by (rewrite Hf; left).
  apply list_elem_of_filter in Hx as [HP Hin]. by destruct (Hnone x Hin).
Qed.

(** ** Access control *)

Lemma is_admin_lookup (ADMIN_EMAIL e : string) (w : world) (rows : list admin_row) :
  e ≠ ADMIN_EMAIL → fault (db w) = None → pending_admins (db w) = Some rows →
  (is_admin ADMIN_EMAIL e w).1
  = Ok (bool_decide (filter (λ r, email r = e ∧ status r = "approved") rows ≠ [])).
Proof.
  intros Hne Hf Hrows. unfold is_admin. rewrite decide_False by done.
  unfold select_approved_admin, mbind, M_bind, try_, execute, table, mret, M_ret.
  rewrite Hf, Hrows. cbn. by destruct (bool_decide _).
Qed.

Lemma is_admin_lookup_raises (ADMIN_EMAIL e : string) (w : world) (err : string) :
  e ≠ ADMIN_EMAIL → (select_approved_admin e w).1 = Raise err →
  (is_admin ADMIN_EMAIL e w).1 = Ok false.
Proof.
  intros Hne Hraise. unfold is_admin. rewrite decide_False by done.
  unfold mbind, M_bind, try_ at 1.
  destruct (select_approved_admin e w) as [[rows|err'|] w'] eqn:Hsel; cbn in *; done.
Qed.

(** C4. [is_admin] never raises; it answers true for the configured
    administrator address and for an address with an approved row in
    [pending_admins]; for any other address it answers false when no row of
    that address is approved (a denied row grants nothing) and when the
    lookup raises (for instance because the table is missing). *)
Theorem is_admin_spec (ADMIN_EMAIL e : string) (w : world) :
  (∃ b, (is_admin ADMIN_EMAIL e w).1 = Ok b)
  ∧ (e = ADMIN_EMAIL → (is_admin ADMIN_EMAIL e w).1 = Ok true)
  ∧ (∀ rows, fault (db w) = None → pending_admins (db w) = Some rows →
       AdminRow e "approved" ∈ rows → (is_admin ADMIN_EMAIL e w).1 = Ok true)
  ∧ (∀ rows, e ≠ ADMIN_EMAIL → fault (db w) = None →
       pending_admins (db w) = Some rows →
       (∀ r, r ∈ rows → email r = e → status r = "denied") →
       (is_admin ADMIN_EMAIL e w).1 = Ok false)
  ∧ (∀ err, e ≠ ADMIN_EMAIL → (select_approved_admin e w).1 = Raise err →
       (is_admin ADMIN_EMAIL e w).1 = Ok false).
Proof.
  assert (Hconfigured : e = ADMIN_EMAIL → (is_admin ADMIN_EMAIL e w).1 = Ok true).
  { intros ->. unfold is_admin. by rewrite decide_True. }
  split; [|split; [done|split; [|split]]].
  - destruct (decide (e = ADMIN_EMAIL)) as [Heq|Hne]; [eauto|].
    destruct (select_approved_admin e w) as [[rows|err|] w'] eqn:Hsel.
    + unfold is_admin. rewrite decide_False by done.
      unfold mbind, M_bind, try_ at 1. rewrite Hsel. cbn.
      destruct (bool_decide _); eauto.
    + exists false. eapply is_admin_lookup_raises; [done|]. by rewrite Hsel.
    + unfold select_approved_admin, execute in Hsel.
      destruct (fault (db w)); [done|].
      destruct (table _ _ _) as [?|[? ?]]; done.
  - intros rows Hf Hrows Hin.
    destruct (decide (e = ADMIN_EMAIL)) as [Heq|Hne]; [eauto|].
    rewrite (is_admin_lookup _ _ _ rows) by done. f_equal.
    apply bool_decide_eq_true. intros Hnil.
    eapply (filter_nil_not_elem_of _ _ (AdminRow e "approved")) in Hnil; done.
  - intros rows Hne Hf Hrows Hdenied.
    rewrite (is_admin_lookup _ _ _ rows) by done. f_equal.
    apply bool_decide_eq_false. intros Hhit. apply Hhit.
    apply filter_none. intros r Hin [Hmail Hstatus].
    specialize (Hdenied r Hin Hmail). congruence.
  - intros err Hne Hraise. by eapply is_admin_lookup_raises.
Qed.

Lemma is_admin_spec_witness :
  (is_admin "lead@brwg.org" "lead@brwg.org" (fresh_world (admins_db None))).1 = Ok true
  ∧ (is_admin "lead@brwg.org" "ana@brwg.org"
       (fresh_world (admins_db (Some [AdminRow "ana@brwg.org" "approved";
                                      AdminRow "bo@brwg.org" "denied"])))).1 = Ok true
  ∧ (is_admin "lead@brwg.org" "bo@brwg.org"
       (fresh_world (admins_db (Some [AdminRow "ana@brwg.org" "approved";
                                      AdminRow "bo@brwg.org" "denied"])))).1 = Ok false
  ∧ (is_admin "lead@brwg.org" "bo@brwg.org" (fresh_world (admins_db None))).1 = Ok false.
Proof.
  split; [|split; [|split]].
  - by apply (is_admin_spec "lead@brwg.org" "lead@brwg.org").
  - destruct (is_admin_spec "lead@brwg.org" "ana@brwg.org"
                (fresh_world (admins_db (Some [AdminRow "ana@brwg.org" "approved";
                                               AdminRow "bo@brwg.org" "denied"]))))
      as (_ & _ & Happroved & _).
    eapply Happroved; [reflexivity..|]. left.
  - destruct (is_admin_spec "lead@brwg.org" "bo@brwg.org"
                (fresh_world (admins_db (Some [AdminRow "ana@brwg.org" "approved";
                                               AdminRow "bo@brwg.org" "denied"]))))
      as (_ & _ & _ & Hdenied & _).
    eapply Hdenied; [done|reflexivity..|].
    intros r Hin Hmail.
    apply elem_of_cons in Hin as [->|Hin]; [done|].
    apply elem_of_cons in Hin as [->|Hin]; [done|].
    by apply elem_of_nil in Hin.
  - destruct (is_admin_spec "lead@brwg.org" "bo@brwg.org" (fresh_world (admins_db None)))
      as (_ & _ & _ & _ & Hraises).
    by eapply Hraises.
Defined.

(** ** Site registry *)

(** C9. Whenever the fetch of the [sites] table raises, [get_sites] returns
    the three hardcoded pairs, in order, and does not raise. *)
Theorem get_sites_fallback (w : world) (err : string) :
  (select_sites w).1 = Raise err → (get_sites w).1 = Ok default_sites.
Proof.
  intros Hraise. unfold get_sites, mbind, M_bind, try_.
  destruct (select_sites w) as [[rows|err'|] w']; cbn in *; done.
Qed.

Lemma get_sites_fallback_witness :
  (select_sites (fresh_world (admins_db None))).1 = Raise "relation sites does not exist"
  ∧ (get_sites (fresh_world (admins_db None))).1
    = Ok [("Blue River at Silverthorne Pavilion- 196", "Blue River");
          ("Snake River KSS- 52", "Snake River");
          ("Swan River Reach A- 1007", "Swan River")].
Proof.
  split; [reflexivity|].
  apply (get_sites_fallback _ "relation sites does not exist"). reflexivity.
Defined.

(** ** Display names *)

Lemma dict_update_lookup_None (m : gmap string string) (pairs : list (string * string))
    (k : string) :
  m !! k = None → k ∉ pairs.*1 → dict_update m pairs !! k = None.
Proof.
  revert m. induction pairs as [|[k' v'] pairs IH]; intros m Hm Hk; [done|].
  cbn in *. apply not_elem_of_cons in Hk as [Hne Hk].
  apply IH; [|done]. by rewrite lookup_insert_ne.
Qed.

Lemma site_mapping_legacy (sites : list (string * string)) :
  site_mapping sites !! "Site 1" = Some "Blue River"
  ∧ site_mapping sites !! "Site 2" = Some "Snake River"
  ∧ site_mapping sites !! "Site 3" = Some "Swan River".
Proof. unfold site_mapping. cbn. by simplify_map_eq. Qed.

Lemma site_mapping_unmapped (sites : list (string * string)) (s : string) :
  s ∉ sites.*1 ++ legacy_short_names.*1 → site_mapping sites !! s = None.
Proof.
  intros Hs. apply not_elem_of_app in Hs as [Hsites Hlegacy].
  unfold site_mapping. apply dict_update_lookup_None; [|done].
  by apply dict_update_lookup_None.
Qed.

(** The chart view resolves names as the registry contract asks: each
    legacy token and, under the hardcoded registry, its full name give the
    same short name, and an unmapped value is shown as it is stored. *)
Lemma view_data_site_abbrev_spec (sites : list (string * string)) (s : string) :
  view_data_site_abbrev (site_mapping sites) "Site 1" = "Blue River"
  ∧ view_data_site_abbrev (site_mapping sites) "Site 2" = "Snake River"
  ∧ view_data_site_abbrev (site_mapping sites) "Site 3" = "Swan River"
  ∧ (view_data_site_abbrev (site_mapping default_sites) <$> default_sites.*1)
    = ["Blue River"; "Snake River"; "Swan River"]
  ∧ (s ∉ sites.*1 ++ legacy_short_names.*1 →
     view_data_site_abbrev (site_mapping sites) s = s).
Proof.
  destruct (site_mapping_legacy sites) as (H1 & H2 & H3).
  unfold view_data_site_abbrev. rewrite H1, H2, H3.
  split; [done|]. split; [done|]. split; [done|]. split; [by vm_compute|].
  intros Hs. by rewrite site_mapping_unmapped.
Qed.

(** C5. In the record list of [edit_data] a stored site value that is
    neither a registry full name nor a legacy token gets no display name at
    all (NaN), while the chart view shows the same value unchanged. *)
Theorem edit_data_site_display_unmapped (sites : list (string * string)) (s : string) :
  s ∉ sites.*1 ++ legacy_short_names.*1 →
  edit_data_site_display (site_mapping sites) s = None
  ∧ view_data_site_abbrev (site_mapping sites) s = s.
Proof.
  intros Hs. unfold edit_data_site_display, view_data_site_abbrev.
  by rewrite site_mapping_unmapped.
Qed.

Lemma edit_data_site_display_unmapped_witness :
  edit_data_site_display (site_mapping default_sites) "Site 4" = None
  ∧ view_data_site_abbrev (site_mapping default_sites) "Site 4" = "Site 4".
Proof.
  apply (edit_data_site_display_unmapped default_sites "Site 4").
  vm_compute. intros Hin. repeat (apply elem_of_cons in Hin as [?|Hin]; [done|]).
  by apply elem_of_nil in Hin.
Defined.

(** ** Chart preprocessing *)

Lemma unique_elem_of {A} `{EqDecision A} (l : list A) (x : A) :
  x ∈ unique l ↔ x ∈ l.
Proof.
  induction l as [|y l IH]; [done|]. cbn.
  rewrite !elem_of_cons, list_elem_of_filter, IH.
  destruct (decide (x = y)); tauto.
Qed.

Lemma blank_zero_idemp (v : option Q) : blank_zero (blank_zero v) = blank_zero v.
Proof.
  destruct v as [q|]; [|done]. cbn.
  destruct (Qeq_bool q 0) eqn:Hq; [done|]. cbn. by rewrite Hq.
Qed.

(** The loop over the sites amounts to blanking the zeros of every row
    whose site the loop visits. *)
Lemma blank_sites_fold (visited : list string) (df : list df_row) :
  foldl (λ acc s, blank_site_zeros s acc) df visited
  = (λ r, if decide (df_site r ∈ visited) then blank_row r else r) <$> df.
Proof.
  revert df. induction visited as [|s visited IH]; intros df; cbn.
  - induction df as [|r df IHdf]; [done|]. cbn. rewrite <- IHdf.
    by rewrite decide_False by apply not_elem_of_nil.
  - rewrite IH. unfold blank_site_zeros. rewrite <- list_fmap_compose.
    apply list_fmap_ext. intros _ r _. cbn.
    destruct (decide (df_site r = s)) as [Hs|Hs]; cbn.
    + rewrite (decide_True (P := df_site r ∈ s :: visited)) by (rewrite Hs; left).
      fold (blank_row r).
      destruct (decide (df_site r ∈ visited)); [|done].
      unfold blank_row. cbn. by rewrite blank_zero_idemp.
    + destruct (decide (df_site r ∈ visited)) as [Hin|Hin].
      * by rewrite decide_True by (by right).
      * rewrite decide_False; [done|]. by intros [?|?]%elem_of_cons.
Qed.

Lemma zero_not_meaningful_params (p : param) :
  zero_not_meaningful p = negb (bool_decide (p ∈ [Temperature; Flow])).
Proof. by destruct p; vm_compute. Qed.

(** C3, as the code has it. For every parameter and every stored row, the
    plotted cell is the stored cell with a zero turned into a gap exactly
    for dissolved oxygen (mg/L and saturation), hardness, alkalinity and pH;
    temperature and flow both keep a stored zero. *)
Theorem chart_zero_handling (mapping : gmap string string) (p : param)
    (rows : list wq_row) :
  df_value <$> df_processed mapping p rows
  = (λ r, rendered p (cell p (row_data r))) <$> rows
  ∧ ∀ q, rendered p (Some q)
         = if Qeq_bool q 0 && negb (bool_decide (p ∈ [Temperature; Flow]))
           then None else Some q.
Proof.
  split.
  - unfold df_processed, rendered.
    destruct (zero_not_meaningful p).
    + rewrite blank_sites_fold. unfold frame.
      rewrite <- !list_fmap_compose. apply list_fmap_ext. intros i r Hr. cbn.
      rewrite decide_True; [done|].
      apply unique_elem_of, list_elem_of_fmap. exists r. split; [done|].
      by apply list_elem_of_lookup_2 in Hr.
    + unfold frame. rewrite <- list_fmap_compose. by apply list_fmap_ext.
  - intros q. unfold rendered. rewrite zero_not_meaningful_params.
    destruct (bool_decide (p ∈ [Temperature; Flow])); cbn;
      by destruct (Qeq_bool q 0).
Qed.

(** C3 as worded fails: flow is not the only parameter whose stored zero is
    plotted, a temperature of zero is plotted too. *)
Lemma chart_zero_not_only_flow :
  ¬ (∀ (p : param) (mapping : gmap string string) (rows : list wq_row) (r : df_row),
       p ≠ Flow → r ∈ df_processed mapping p rows → df_value r ≠ Some 0%Q).
Proof.
  intros Hclaim.
  apply (Hclaim Temperature ∅ [january_row]
           (DfRow 1 "Site 1" "2024-01-15" "Site 1" (Some 0%Q))); [done| |done].
  vm_compute. left.
Qed.

(** ** The entry form *)

(** C1. Whatever the numeric input of a field holds, the payload staged at
    submission has null for that field when its N/A box is ticked, and
    exactly the input's number when it is not. *)
Theorem na_toggle_payload (user selected : string) (existing : option wq_row)
    (d : calendar_date) (form : form_inputs) (w : world) (p : param) :
  ∃ pending,
    staged_after (dashboard_submit user existing selected (Some d) form) w
    = Some (VPending pending)
    ∧ cell p (data pending)
      = if not_available (field form p) then None else Some (widget (field form p)).
Proof.
  eexists. split.
  - unfold staged_after, dashboard_submit, mbind, M_bind, session_set, rerun. cbn.
    apply lookup_insert_eq.
  - by destruct p.
Qed.

(** ** Saving an entry *)

Lemma mutations_snoc (t : list db_call) (c : db_call) :
  filter (λ c, is_mutation c = true) (t ++ [c])
  = filter (λ c, is_mutation c = true) t ++ (if is_mutation c then [c] else []).
Proof.
  rewrite filter_app. f_equal. destruct (is_mutation c) eqn:Hc.
  - by rewrite filter_cons_True.
  - rewrite filter_cons_False; [done|]. by rewrite Hc.
Qed.

(** With the store reachable, the lookup returns the first stored row of
    the selected site and date. *)
Lemma dashboard_lookup_run (selected : string) (d : calendar_date) (w : world)
    (rows : list wq_row) :
  fault (db w) = None → water_quality (db w) = Some rows → selected ≠ "" →
  ∃ n, dashboard_lookup None selected (Some d) w
  = (Ok (head (filter (λ r, site (row_data r) = db_site_name selected
                            ∧ date (row_data r) = strftime_iso d) rows)),
     World (session w) (db w)
           (trace w ++ [SelectWqBySiteDate (db_site_name selected) (strftime_iso d)])
           (notices w ++ [n])).
Proof.
  intros Hf Hrows Hsel. unfold dashboard_lookup.
  replace (String.eqb selected "") with false
    by (symmetry; by apply String.eqb_neq).
  cbn. unfold select_wq_by_site_date, mbind, M_bind, try_, execute, table, say.
  rewrite Hf, Hrows. cbn.
  destruct (filter _ rows) as [|found rest]; cbn; eauto.
Qed.

Lemma dashboard_lookup_world (existing : option wq_row) (selected : string)
    (day : option calendar_date) (w : world) :
  session (dashboard_lookup existing selected day w).2 = session w
  ∧ db (dashboard_lookup existing selected day w).2 = db w
  ∧ mutations (dashboard_lookup existing selected day w).2 = mutations w
  ∧ ∃ found, (dashboard_lookup existing selected day w).1 = Ok found.
Proof.
  unfold dashboard_lookup, mutations.
  destruct existing, (negb (String.eqb selected "")), day; cbn; eauto.
  unfold select_wq_by_site_date, mbind, M_bind, try_, execute, table, say.
  destruct (fault (db w)); cbn.
  { rewrite mutations_snoc. cbn. rewrite app_nil_r. eauto. }
  destruct (water_quality (db w)) as [rows|]; cbn.
  2: { rewrite mutations_snoc. cbn. rewrite app_nil_r. eauto. }
  destruct (filter _ rows); cbn; rewrite mutations_snoc; cbn;
    rewrite app_nil_r; eauto.
Qed.

Lemma store_call_run (pending : pending_save) (w : world) (rows : list wq_row) :
  fault (db w) = None → water_quality (db w) = Some rows →
  store_call pending w
  = if id_truthy (existing_id pending)
    then (Ok "Data updated successfully!",
          World (session w)
                (set_water_quality
                   ((λ r, if decide (row_id r = default 0%Z (existing_id pending))
                          then WqRow (default 0%Z (existing_id pending)) (data pending)
                          else r) <$> rows) (db w))
                (trace w ++ [UpdateWq (default 0%Z (existing_id pending)) (data pending)])
                (notices w))
    else (Ok "Data saved successfully!",
          World (session w)
                (bump_next_id (set_water_quality
                   (rows ++ [WqRow (next_id (db w)) (data pending)]) (db w)))
                (trace w ++ [InsertWq (data pending)])
                (notices w)).
Proof.
  intros Hf Hrows. unfold store_call.
  destruct (id_truthy (existing_id pending));
    unfold update_wq, insert_wq, mbind, M_bind, execute, table;
    by rewrite Hf, Hrows.
Qed.

(** A raising store call changes neither the session nor the tables. *)
Lemma store_call_raise (pending : pending_save) (w : world) (e : string) :
  (store_call pending w).1 = Raise e →
  session (store_call pending w).2 = session w
  ∧ db (store_call pending w).2 = db w
  ∧ notices (store_call pending w).2 = notices w.
Proof.
  unfold store_call.
  destruct (id_truthy (existing_id pending));
    unfold update_wq, insert_wq, mbind, M_bind, execute, table;
    destruct (fault (db w)); cbn; try done;
    destruct (water_quality (db w)); cbn; done.
Qed.

(** The outcome of a store call depends on the database alone. *)
Lemma store_call_outcome (pending : pending_save) (w1 w2 : world) :
  db w1 = db w2 → (store_call pending w1).1 = (store_call pending w2).1.
Proof.
  intros Hdb. unfold store_call.
  destruct (id_truthy (existing_id pending));
    unfold update_wq, insert_wq, mbind, M_bind, execute, table; rewrite Hdb;
    destruct (fault (db w2)); cbn; try done;
    destruct (water_quality (db w2)); cbn; done.
Qed.

Lemma store_call_no_rerun (pending : pending_save) (w : world) :
  (store_call pending w).1 ≠ Rerun.
Proof.
  unfold store_call.
  destruct (id_truthy (existing_id pending));
    unfold update_wq, insert_wq, mbind, M_bind, execute, table;
    destruct (fault (db w)); cbn; try done;
    destruct (water_quality (db w)); cbn; done.
Qed.

(** The confirm button, spelled out on the three outcomes of the store
    call. *)
Lemma confirmation_confirm_run (w : world) (pending : pending_save) :
  session w !! "pending_wq_save" = Some (VPending pending) →
  dashboard_confirmation ConfirmSave w
  = match store_call pending (after_warning w) with
    | (Ok msg, w2) =>
        (Rerun,
         with_session (λ s, delete "pending_wq_save"
                              (<["data_submitted" := VBool true]>
                                 (<["success_message" := VStr msg]> s))) w2)
    | (Raise e, w2) =>
        (Ok (), World (session w2) (db w2) (trace w2)
                      (notices w2 ++ [Error ("Error submitting data: " +:+ e)]))
    | (Rerun, w2) => (Rerun, w2)
    end.
Proof.
  intros Hstaged.
  unfold dashboard_confirmation, mbind, M_bind, session_get. rewrite Hstaged.
  unfold say at 1. fold (after_warning w).
  unfold try_, commit, mbind, M_bind.
  destruct (store_call pending (after_warning w)) as [[msg|e|] w2]; reflexivity.
Qed.




(** C6. With a payload staged, the cancel button issues no remote call,
    leaves the database as it is, and removes the staged payload from the
    session. *)
Theorem cancel_discards_staged (w : world) (pending : pending_save) :
  session w !! "pending_wq_save" = Some (VPending pending) →
  let w' := (dashboard_confirmation Cancel w).2 in
  trace w' = trace w
  ∧ db w' = db w
  ∧ session w' = delete "pending_wq_save" (session w)
  ∧ session w' !! "pending_wq_save" = None.
Proof.
  intros Hstaged.
  unfold dashboard_confirmation, mbind, M_bind, session_get. rewrite Hstaged.
  cbn. repeat split. apply lookup_delete_eq.
Qed.

Lemma cancel_discards_staged_witness :
  let staged := PendingSave (row_data january_row) (Some 1%Z) "Site 1" "01/15/2024" in
  let w' := (dashboard_confirmation Cancel
               (World {["pending_wq_save" := VPending staged]} (db winter_world) [] [])).2 in
  trace w' = [] ∧ db w' = db winter_world
  ∧ session w' = delete "pending_wq_save" {["pending_wq_save" := VPending staged]}
  ∧ session w' !! "pending_wq_save" = None.
Proof.
  intros staged.
  refine (cancel_discards_staged
            (World {["pending_wq_save" := VPending staged]} (db winter_world) [] [])
            staged _).
  apply lookup_singleton_eq.
Defined.

(** C10. With a payload staged: when the store call of the confirm button
    raises, the handler returns normally with the session exactly as it
    was, so the payload is still staged and no success flag was set; and
    whenever the confirmation step ends with nothing staged, either cancel
    was pressed or confirm was pressed and the store call succeeded. *)
Theorem failed_commit_keeps_staged (w : world) (pending : pending_save) :
  session w !! "pending_wq_save" = Some (VPending pending) →
  (∀ e, (store_call pending w).1 = Raise e →
     (dashboard_confirmation ConfirmSave w).1 = Ok ()
     ∧ session (dashboard_confirmation ConfirmSave w).2 = session w
     ∧ db (dashboard_confirmation ConfirmSave w).2 = db w)
  ∧ (∀ clicked,
       session (dashboard_confirmation clicked w).2 !! "pending_wq_save" = None →
       clicked = Cancel
       ∨ (clicked = ConfirmSave ∧ ∃ msg, (store_call pending w).1 = Ok msg)).
Proof.
  intros Hstaged.
  assert (Hsame : (store_call pending (after_warning w)).1 = (store_call pending w).1)
    by by apply store_call_outcome.
  pose proof (store_call_raise pending (after_warning w)) as Hraise.
  pose proof (store_call_no_rerun pending (after_warning w)) as Hnorerun.
  split.
  - intros e He. rewrite (confirmation_confirm_run w pending) by done.
    rewrite <- Hsame in He.
    destruct (store_call pending (after_warning w)) as [[msg|e'|] w2];
      cbn in He; try done.
    destruct (Hraise e' eq_refl) as (Hs & Hd & _). cbn in *. done.
  - intros [| |] Hgone.
    + right. split; [done|].
      rewrite (confirmation_confirm_run w pending) in Hgone by done.
      rewrite <- Hsame.
      destruct (store_call pending (after_warning w)) as [[msg|e'|] w2]; cbn in *.
      * eauto.
      * destruct (Hraise e' eq_refl) as (Hs & _). cbn in Hs. congruence.
      * done.
    + by left.
    + unfold dashboard_confirmation, mbind, M_bind, session_get in Hgone.
      rewrite Hstaged in Hgone. cbn in Hgone. congruence.
Qed.

Lemma failed_commit_keeps_staged_witness :
  let staged := PendingSave (row_data january_row) None "Site 1" "01/15/2024" in
  (dashboard_confirmation ConfirmSave (unreachable_world staged)).1 = Ok ()
  ∧ session (dashboard_confirmation ConfirmSave (unreachable_world staged)).2
    = {["pending_wq_save" := VPending staged]}
  ∧ db (dashboard_confirmation ConfirmSave (unreachable_world staged)).2
    = db (unreachable_world staged).
Proof.
  intros staged.
  destruct (failed_commit_keeps_staged (unreachable_world staged) staged) as [Hkeeps _].
  { apply lookup_singleton_eq. }
  apply (Hkeeps "connection refused"). reflexivity.
Defined.

(** ** Deleting a record *)

Lemma confirm_delete_key_inj (i j : Z) :
  confirm_delete_key i = confirm_delete_key j → i = j.
Proof.
  unfold confirm_delete_key. intros Hkey.
  apply String.app_inj in Hkey. by apply pretty_Z_inj in Hkey.
Qed.

Lemma delete_wq_trace (i : Z) (w : world) :
  trace (delete_wq i w).2 = trace w ++ [DeleteWq i]
  ∧ session (delete_wq i w).2 = session w
  ∧ notices (delete_wq i w).2 = notices w.
Proof.
  unfold delete_wq, execute, table.
  destruct (fault (db w)); [done|]. by destruct (water_quality (db w)).
Qed.

Lemma edit_data_delete_unarmed (i : Z) (w : world) :
  from_option truthy false (session w !! confirm_delete_key i) = false →
  edit_data_delete i w
  = (Rerun, World (<[confirm_delete_key i := VBool true]> (session w)) (db w) (trace w)
                  (notices w ++ [Warning "Click Delete again to confirm"])).
Proof.
  intros Hunarmed.
  unfold edit_data_delete, delete_click, session_truthy, mbind, M_bind, try_, session_get.
  cbn [mret M_ret]. by rewrite Hunarmed.
Qed.

Lemma edit_data_delete_armed (i : Z) (w : world) :
  from_option truthy false (session w !! confirm_delete_key i) = true →
  trace (edit_data_delete i w).2 = trace w ++ [DeleteWq i]
  ∧ session (edit_data_delete i w).2 = session w.
Proof.
  intros Harmed. destruct (delete_wq_trace i w) as (Ht & Hs & Hn).
  unfold edit_data_delete, delete_click, session_truthy, mbind, M_bind, try_, session_get.
  cbn [mret M_ret]. rewrite Harmed.
  destruct (delete_wq i w) as [[[]|e|] w1]; cbn in *; done.
Qed.

(** C7. A delete click on a record whose confirmation flag is not set
    issues no remote call and leaves the database alone: it only sets the
    flag of that record id, and of no other.  Any delete click that does
    issue a call found the flag of its own id set, and the call is the
    delete of that id; so from an unset flag it is the second click that
    deletes. *)
Theorem delete_needs_two_clicks (i : Z) (w : world) :
  (from_option truthy false (session w !! confirm_delete_key i) = false →
     trace (edit_data_delete i w).2 = trace w
     ∧ db (edit_data_delete i w).2 = db w
     ∧ session (edit_data_delete i w).2
       = <[confirm_delete_key i := VBool true]> (session w)
     ∧ (∀ j, j ≠ i →
          session (edit_data_delete i w).2 !! confirm_delete_key j
          = session w !! confirm_delete_key j)
     ∧ trace (edit_data_delete i (edit_data_delete i w).2).2
       = trace w ++ [DeleteWq i])
  ∧ (trace (edit_data_delete i w).2 ≠ trace w →
       from_option truthy false (session w !! confirm_delete_key i) = true
       ∧ trace (edit_data_delete i w).2 = trace w ++ [DeleteWq i]).
Proof.
  split.
  - intros Hunarmed. rewrite edit_data_delete_unarmed by done. cbn [snd].
    split; [done|]. split; [done|]. split; [done|]. split.
    + intros j Hj. cbn. apply lookup_insert_ne.
      intros Hkey. by apply confirm_delete_key_inj in Hkey.
    + match goal with |- context [edit_data_delete i ?w1] =>
        destruct (edit_data_delete_armed i w1) as [Ht _]
      end.
      { cbn. by rewrite lookup_insert_eq. }
      by rewrite Ht.
  - intros Hcalled.
    destruct (from_option truthy false (session w !! confirm_delete_key i)) eqn:Hflag.
    + split; [done|]. by apply edit_data_delete_armed.
    + rewrite edit_data_delete_unarmed in Hcalled by done. done.
Qed.

Lemma delete_needs_two_clicks_witness :
  trace (edit_data_delete 1 winter_world).2 = []
  ∧ db (edit_data_delete 1 winter_world).2 = db winter_world
  ∧ trace (edit_data_delete 1 (edit_data_delete 1 winter_world).2).2 = [DeleteWq 1]
  ∧ from_option truthy false
      (session (edit_data_delete 1 winter_world).2 !! confirm_delete_key 1) = true.
Proof.
  destruct (delete_needs_two_clicks 1 winter_world) as [Hfirst _].
  destruct Hfirst as (Ht & Hd & Hs & _ & Htwice); [reflexivity|].
  split; [exact Ht|]. split; [exact Hd|]. split; [exact Htwice|].
  destruct (delete_needs_two_clicks 1 (edit_data_delete 1 winter_world).2)
    as [_ Hsecond].
  apply Hsecond. rewrite Htwice, Ht. discriminate.
Defined.

(** ** Chart clicks *)

(** What a click resolves to: the curve number picks an abbreviation in
    order of first appearance, the point index picks a row among all rows
    of the processed frame with that abbreviation, duplicates included. *)
Lemma view_data_click_resolves (mapping : gmap string string) (processed : list df_row)
    (point : clicked_point) (rest : list clicked_point) (w : world)
    (n : nat) (abbrev : string) (row : df_row) :
  unique (df_site_abbrev <$> processed) !! default 0 (curveNumber point) = Some abbrev →
  pointIndex point = Some n →
  filter (λ r, df_site_abbrev r = abbrev) processed !! n = Some row →
  clicked_id_after mapping processed (point :: rest) w = Some (VInt (df_id row)).
Proof.
  intros Hcurve Hpoint Hrow. unfold clicked_id_after, view_data_click.
  rewrite decide_True by by eapply lookup_lt_Some.
  rewrite Hcurve, Hpoint. cbn [default from_option id].
  rewrite decide_True by by eapply lookup_lt_Some.
  rewrite Hrow. unfold mbind, M_bind, session_set, say. cbn.
  by rewrite lookup_insert_eq.
Qed.

(** A click whose curve number or point index is out of range changes
    nothing and reports nothing. *)
Lemma view_data_click_out_of_range (mapping : gmap string string)
    (processed : list df_row) (point : clicked_point) (rest : list clicked_point)
    (w : world) (n : nat) :
  pointIndex point = Some n →
  length (unique (df_site_abbrev <$> processed)) ≤ default 0 (curveNumber point)
  ∨ length (filter (λ r, df_site_abbrev r
                         = default "" (unique (df_site_abbrev <$> processed)
                                       !! default 0 (curveNumber point)))
                   processed) ≤ n →
  view_data_click mapping processed (point :: rest) w = (Ok (), w).
Proof.
  intros Hpoint Hrange. unfold view_data_click.
  destruct (decide (default 0 (curveNumber point)
                    < length (unique (df_site_abbrev <$> processed)))) as [Hlt|Hge];
    [|done].
  rewrite Hpoint. destruct Hrange as [Hcurve|Hidx]; [lia|].
  by rewrite decide_False by lia.
Qed.

(** C8. On a table with two rows for the same site and day, the curve of
    that site shows two points, for the records 1 and 3, yet a click on
    its second point selects record 2, the hidden duplicate: the point
    index is looked up among all rows of the site, not in the
    deduplicated series that is drawn. *)
Theorem click_ignores_deduplication :
  let mapping := site_mapping default_sites in
  let processed := df_processed mapping Ph duplicated_rows in
  df_id <$> curve_points "Blue River" processed = [1; 3]%Z
  ∧ df_id <$> deduplicated_series "Blue River" processed = [1; 3]%Z
  ∧ clicked_id_after mapping processed [ClickedPoint (Some 1) (Some 0)] winter_world
    = Some (VInt 2).
Proof. by vm_compute. Qed.

(** ** The staged payload and the other handlers *)

(** Neither a delete click, nor a chart click, nor the lookup touches the
    staged payload: only the confirmation step can remove it. *)
Lemma other_handlers_keep_staged (w : world) :
  (∀ i, session (edit_data_delete i w).2 !! "pending_wq_save"
        = session w !! "pending_wq_save")
  ∧ (∀ mapping processed clicks,
       session (view_data_click mapping processed clicks w).2 !! "pending_wq_save"
       = session w !! "pending_wq_save")
  ∧ (∀ existing selected day,
       session (dashboard_lookup existing selected day w).2 !! "pending_wq_save"
       = session w !! "pending_wq_save").
Proof.
  split; [|split].
  - intros i.
    destruct (from_option truthy false (session w !! confirm_delete_key i)) eqn:Hflag.
    + by rewrite (proj2 (edit_data_delete_armed i w Hflag)).
    + rewrite edit_data_delete_unarmed by done. cbn [snd session].
      by apply lookup_insert_ne.
  - intros mapping processed clicks. unfold view_data_click.
    destruct clicks as [|point rest]; [done|].
    destruct (decide _); [|done].
    destruct (pointIndex point) as [n|]; [|done].
    destruct (decide _); [|done].
    destruct (_ !! n) as [row|]; [|done].
    unfold mbind, M_bind, session_set, say. cbn [snd session with_session].
    by rewrite !lookup_insert_ne.
  - intros existing selected day.
    by rewrite (proj1 (dashboard_lookup_world existing selected day w)).
Qed.

(** * Further properties *)

(** ** Saving and looking up again *)

(** The database a save leaves behind when the store is reachable. *)
Lemma dashboard_save_db (user selected : string) (d : calendar_date)
    (form : form_inputs) (w : world) (rows : list wq_row) :
  fault (db w) = None → water_quality (db w) = Some rows → selected ≠ "" →
  db (dashboard_save user selected d form w).2
  = let payload := build_payload user selected d form in
    match head (filter (matches_selection selected d) rows) with
    | Some found =>
        if (row_id found =? 0)%Z
        then bump_next_id (set_water_quality
               (rows ++ [WqRow (next_id (db w)) payload]) (db w))
        else set_water_quality
               ((λ r, if decide (row_id r = row_id found)
                      then WqRow (row_id found) payload else r) <$> rows) (db w)
    | None => bump_next_id (set_water_quality
                (rows ++ [WqRow (next_id (db w)) payload]) (db w))
    end.
Proof.
  intros Hf Hrows Hsel.
  destruct (dashboard_lookup_run selected d w rows Hf Hrows Hsel) as [n Hrun].
  unfold dashboard_save. rewrite Hrun.
  unfold dashboard_submit, mbind, M_bind, session_set, rerun. cbn [fst snd].
  set (pending := PendingSave _ _ _ _).
  rewrite (confirmation_confirm_run _ pending) by apply lookup_insert_eq.
  rewrite (store_call_run _ _ rows) by done.
  unfold matches_selection.
  destruct (head _) as [found|]; cbn [fmap option_fmap option_map existing_id pending
                                        id_truthy]; [|done].
  by destruct (row_id found =? 0)%Z.
Qed.

Lemma filter_snoc_only {A} (P : A → Prop) `{∀ x, Decision (P x)} (l : list A) (x : A) :
  filter P l = [] → P x → filter P (l ++ [x]) = [x].
Proof.
  intros Hl Hx. rewrite filter_app, Hl. by rewrite filter_cons_True.
Qed.

(** X1. Insert, then look up: once a save for a site and day that had no
    record has gone through, the lookup for the same selection finds the
    row just inserted, with its new id and the payload. *)
Theorem saved_entry_is_found (user selected : string) (d : calendar_date)
    (form : form_inputs) (w : world) (rows : list wq_row) :
  fault (db w) = None → water_quality (db w) = Some rows → selected ≠ "" →
  filter (matches_selection selected d) rows = [] →
  (dashboard_lookup None selected (Some d)
     (dashboard_save user selected d form w).2).1
  = Ok (Some (WqRow (next_id (db w)) (build_payload user selected d form))).
Proof.
  intros Hf Hrows Hsel Hmiss.
  pose proof (dashboard_save_db user selected d form w rows Hf Hrows Hsel) as Hdb.
  rewrite Hmiss in Hdb. cbn [head] in Hdb.
  set (w' := (dashboard_save user selected d form w).2) in *.
  set (new := WqRow (next_id (db w)) (build_payload user selected d form)) in *.
  destruct (dashboard_lookup_run selected d w' (rows ++ [new])) as [n Hrun];
    [by rewrite Hdb..|done|].
  rewrite Hrun. cbn [fst]. do 2 f_equal.
  change (head (filter (matches_selection selected d) (rows ++ [new])) = Some new).
  by rewrite filter_snoc_only.
Qed.

(** X2. Saving twice for the same site and day adds one row, not two: the
    second save finds the row of the first and overwrites it.  The store
    must hand out an id that is not zero and not already in use. *)
Theorem second_save_updates_in_place (user selected : string) (d : calendar_date)
    (first second : form_inputs) (w : world) (rows : list wq_row) :
  fault (db w) = None → water_quality (db w) = Some rows → selected ≠ "" →
  filter (matches_selection selected d) rows = [] →
  next_id (db w) ≠ 0%Z → (∀ r, r ∈ rows → row_id r ≠ next_id (db w)) →
  water_quality
    (db (dashboard_save user selected d second
           (dashboard_save user selected d first w).2).2)
  = Some (rows ++ [WqRow (next_id (db w)) (build_payload user selected d second)]).
Proof.
  intros Hf Hrows Hsel Hmiss Hnonzero Hfresh.
  pose proof (dashboard_save_db user selected d first w rows Hf Hrows Hsel) as Hdb.
  rewrite Hmiss in Hdb. cbn [head] in Hdb.
  set (w' := (dashboard_save user selected d first w).2) in *.
  set (new := WqRow (next_id (db w)) (build_payload user selected d first)) in *.
  rewrite (dashboard_save_db user selected d second w' (rows ++ [new]))
    by (by rewrite ?Hdb).
  rewrite filter_snoc_only by done. cbn [head row_id new].
  rewrite (proj2 (Z.eqb_neq _ _)) by done.
  cbn [water_quality set_water_quality]. f_equal.
  rewrite fmap_app. f_equal.
  - rewrite <- (list_fmap_id rows) at 2. apply list_fmap_ext. intros i r Hr. cbn.
    rewrite decide_False; [done|]. apply Hfresh. by eapply list_elem_of_lookup_2.
  - cbn. by rewrite decide_True.
Qed.

(** X3. A lookup that raises is taken for "no record": the save that
    follows inserts a new row, whatever the table holds by then, also when
    a row for that site and day is already there. *)
Theorem failed_lookup_saves_as_new (user selected : string) (d : calendar_date)
    (form : form_inputs) (w : world) (later : database) (rows : list wq_row)
    (e : string) :
  selected ≠ "" →
  (select_wq_by_site_date (db_site_name selected) (strftime_iso d) w).1 = Raise e →
  fault later = None → water_quality later = Some rows →
  (dashboard_lookup None selected (Some d) w).1 = Ok None
  ∧ water_quality (db (dashboard_save_across user selected d form w later))
    = Some (rows ++ [WqRow (next_id later) (build_payload user selected d form)]).
Proof.
  intros Hsel Hraise Hf Hrows.
  assert (Hlookup : ∃ w1, dashboard_lookup None selected (Some d) w = (Ok None, w1)).
  { unfold dashboard_lookup.
    replace (String.eqb selected "") with false
      by (symmetry; by apply String.eqb_neq).
    cbn [negb]. unfold mbind, M_bind, try_ at 1.
    destruct (select_wq_by_site_date _ _ w) as [[found|e'|] w1]; cbn in Hraise;
      try done.
    unfold say. cbn. eauto. }
  destruct Hlookup as [w1 Hw1]. split; [by rewrite Hw1|].
  unfold dashboard_save_across. rewrite Hw1.
  unfold dashboard_submit, mbind, M_bind, session_set, rerun. cbn [fst snd].
  set (pending := PendingSave _ _ _ _).
  rewrite (confirmation_confirm_run _ pending) by apply lookup_insert_eq.
  by rewrite (store_call_run _ _ rows).
Qed.

(** ** The success notice *)

Lemma show_success_run (w : world) (msg : string) :
  shown "data_submitted" w = true →
  session w !! "success_message" = Some (VStr msg) →
  show_success w
  = (Ok (), World (delete "success_message"
                     (<["data_submitted" := VBool false]> (session w)))
                  (db w) (trace w) (notices w ++ [Success msg])).
Proof.
  unfold shown. intros Hflag Hmsg.
  unfold show_success, session_truthy, mbind, M_bind, session_get, mret, M_ret.
  by rewrite Hflag, Hmsg.
Qed.

Lemma show_success_idle (w : world) :
  shown "data_submitted" w = false → show_success w = (Ok (), w).
Proof.
  unfold shown. intros Hflag.
  unfold show_success, session_truthy, mbind, M_bind, session_get, mret, M_ret.
  by rewrite Hflag.
Qed.

(** X4. After a confirmed save that went through, the next rendering of
    the entry tab shows the success text once and clears it: a further
    rendering shows nothing and changes nothing. *)
Theorem success_notice_shown_once (w : world) (pending : pending_save)
    (rows : list wq_row) :
  session w !! "pending_wq_save" = Some (VPending pending) →
  fault (db w) = None → water_quality (db w) = Some rows →
  last (notices (confirm_then_render w))
  = Some (Success (if id_truthy (existing_id pending)
                   then "Data updated successfully!"
                   else "Data saved successfully!"))
  ∧ shown "data_submitted" (confirm_then_render w) = false
  ∧ session (confirm_then_render w) !! "success_message" = None
  ∧ show_success (confirm_then_render w) = (Ok (), confirm_then_render w).
Proof.
  intros Hstaged Hf Hrows. unfold confirm_then_render.
  rewrite (confirmation_confirm_run w pending) by done.
  rewrite (store_call_run _ _ rows) by done.
  assert (Hrender : ∀ msg w0,
    let w1 := with_session (λ s, delete "pending_wq_save"
                 (<["data_submitted" := VBool true]>
                    (<["success_message" := VStr msg]> s))) w0 in
    last (notices (show_success w1).2) = Some (Success msg)
    ∧ shown "data_submitted" (show_success w1).2 = false
    ∧ session (show_success w1).2 !! "success_message" = None
    ∧ show_success (show_success w1).2 = (Ok (), (show_success w1).2)).
  { intros msg w0 w1.
    rewrite (show_success_run w1 msg).
    - cbn [snd notices session]. rewrite last_snoc.
      assert (Hcleared : shown "data_submitted"
                (World (delete "success_message"
                          (<["data_submitted" := VBool false]> (session w1)))
                       (db w1) (trace w1) (notices w1 ++ [Success msg])) = false).
      { unfold shown. cbn [session].
        by rewrite lookup_delete_ne, lookup_insert_eq. }
      split; [done|]. split; [done|]. split; [apply lookup_delete_eq|].
      by apply show_success_idle.
    - unfold shown, w1. cbn [with_session session].
      by rewrite lookup_delete_ne, lookup_insert_eq.
    - unfold w1. cbn [with_session session].
      by rewrite lookup_delete_ne, lookup_insert_ne, lookup_insert_eq. }
  destruct (id_truthy (existing_id pending)); apply Hrender.
Qed.

(** ** Hand-off of a chart click *)

Lemma request_world {A} (run : database → string + A * database) (w : world) :
  session (request run w).2 = session w
  ∧ trace (request run w).2 = trace w
  ∧ notices (request run w).2 = notices w
  ∧ (request run w).1 ≠ Rerun
  ∧ (∀ e, (request run w).1 = Raise e → db (request run w).2 = db w).
Proof.
  unfold request. destruct (fault (db w)); [done|].
  by destruct (run (db w)) as [?|[? ?]].
Qed.

Lemma dashboard_handoff_idle (temp_site_options : list string) (w : world) :
  shown "clicked_id" w = false →
  dashboard_handoff temp_site_options w = (Ok no_prefill, w).
Proof.
  unfold shown. intros Hflag.
  unfold dashboard_handoff, mbind, M_bind, session_get. by rewrite Hflag.
Qed.

Lemma select_wq_by_id_world (i : Z) (w : world) :
  (∃ found, select_wq_by_id i w = (Ok found, w))
  ∨ (∃ e, select_wq_by_id i w = (Raise e, w)).
Proof.
  unfold select_wq_by_id, request, table. destruct w as [s d t n]. cbn.
  destruct (fault d); [eauto|]. destruct (water_quality d); eauto.
Qed.

Lemma dashboard_handoff_run (temp_site_options : list string) (w : world) :
  shown "clicked_id" w = true →
  ∃ p n, dashboard_handoff temp_site_options w
         = (Ok p,
            World (delete "clicked_date"
                     (delete "clicked_site" (delete "clicked_id" (session w))))
                  (db w) (trace w) n).
Proof.
  unfold shown. intros Hflag.
  unfold dashboard_handoff, mbind, M_bind, session_get. rewrite Hflag.
  unfold say at 1. cbn [fst snd].
  set (w1 := World _ _ _ _).
  destruct (session w !! "clicked_id") as [[b|s|i|p]|] eqn:Hclicked;
    try (unfold try_, raise, say, session_pop; cbn; eauto; fail).
  unfold try_.
  destruct (select_wq_by_id_world i w1) as [[found Hsel]|[e Hsel]]; rewrite Hsel.
  - destruct found as [|found rest]; unfold say, session_pop; cbn; eauto.
  - unfold say, session_pop; cbn; eauto.
Qed.

(** X5. Hand-off consumes the click.  When [clicked_id] holds a truthy
    value the hand-off returns normally and removes the three click keys
    from the session, whether or not the record could be fetched, and
    leaves the database alone; otherwise it does nothing at all. *)
Theorem handoff_consumes_click (temp_site_options : list string) (w : world) :
  (shown "clicked_id" w = true →
     (∃ p, (dashboard_handoff temp_site_options w).1 = Ok p)
     ∧ session (dashboard_handoff temp_site_options w).2
       = delete "clicked_date" (delete "clicked_site" (delete "clicked_id" (session w)))
     ∧ db (dashboard_handoff temp_site_options w).2 = db w)
  ∧ (shown "clicked_id" w = false →
     dashboard_handoff temp_site_options w = (Ok no_prefill, w)).
Proof.
  split; [|apply dashboard_handoff_idle].
  intros Hflag.
  destruct (dashboard_handoff_run temp_site_options w Hflag) as (p & n & Hrun).
  rewrite Hrun. eauto.
Qed.

Lemma dashboard_handoff_loads (temp_site_options : list string) (w : world)
    (i : Z) (rows : list wq_row) :
  session w !! "clicked_id" = Some (VInt i) → i ≠ 0%Z →
  fault (db w) = None → water_quality (db w) = Some rows →
  (dashboard_handoff temp_site_options w).1
  = Ok (match head (filter (λ r, row_id r = i) rows) with
        | Some found =>
            Prefill (Some found)
              (site_index_of (full_site_name (site (row_data found))) temp_site_options)
              (Some (date (row_data found)))
        | None => no_prefill
        end).
Proof.
  intros Hclicked Hi Hf Hrows.
  unfold dashboard_handoff, mbind, M_bind, session_get. rewrite Hclicked.
  cbn [from_option truthy]. rewrite (proj2 (Z.eqb_neq _ _)) by done.
  cbn [negb]. unfold say at 1. cbn [fst snd].
  unfold try_ at 1, select_wq_by_id, request, table. cbn [db].
  rewrite Hf, Hrows.
  destruct (filter _ rows) as [|found rest]; unfold say, session_pop; by cbn.
Qed.

Lemma view_data_click_run (mapping : gmap string string) (processed : list df_row)
    (point : clicked_point) (rest : list clicked_point) (w : world)
    (n : nat) (abbrev : string) (row : df_row) :
  unique (df_site_abbrev <$> processed) !! default 0 (curveNumber point) = Some abbrev →
  pointIndex point = Some n →
  filter (λ r, df_site_abbrev r = abbrev) processed !! n = Some row →
  session (view_data_click mapping processed (point :: rest) w).2
  = <["clicked_id" := VInt (df_id row)]>
      (<["clicked_date" := VStr (us_of_iso (df_date row))]>
         (<["clicked_site" := VStr (df_site row)]> (session w)))
  ∧ db (view_data_click mapping processed (point :: rest) w).2 = db w.
Proof.
  intros Hcurve Hpoint Hrow. unfold view_data_click.
  rewrite decide_True by by eapply lookup_lt_Some.
  rewrite Hcurve, Hpoint. cbn [default from_option id].
  rewrite decide_True by by eapply lookup_lt_Some.
  rewrite Hrow. unfold mbind, M_bind, session_set, say. by cbn.
Qed.

(** X6. Click, then open the entry tab: the record loaded for editing is
    the first stored row whose id is the id of the clicked row, and the
    form is preselected from that row's site and date.  The clicked id
    must not be zero, which the hand-off would take for "no click". *)
Theorem click_then_handoff_loads_row (mapping : gmap string string)
    (processed : list df_row) (point : clicked_point) (rest : list clicked_point)
    (temp_site_options : list string) (w : world)
    (n : nat) (abbrev : string) (row : df_row) (rows : list wq_row) (stored : wq_row) :
  unique (df_site_abbrev <$> processed) !! default 0 (curveNumber point) = Some abbrev →
  pointIndex point = Some n →
  filter (λ r, df_site_abbrev r = abbrev) processed !! n = Some row →
  df_id row ≠ 0%Z →
  fault (db w) = None → water_quality (db w) = Some rows →
  head (filter (λ r, row_id r = df_id row) rows) = Some stored →
  (click_then_handoff mapping processed (point :: rest) temp_site_options w).1
  = Ok (Prefill (Some stored)
          (site_index_of (full_site_name (site (row_data stored))) temp_site_options)
          (Some (date (row_data stored))))
  ∧ row_id stored = df_id row.
Proof.
  intros Hcurve Hpoint Hrow Hid Hf Hrows Hstored.
  destruct (view_data_click_run mapping processed point rest w n abbrev row)
    as [Hs Hd]; [done..|].
  unfold click_then_handoff.
  rewrite (dashboard_handoff_loads _ _ (df_id row) rows); try done.
  - rewrite Hstored. split; [done|].
    apply head_Some_elem_of, list_elem_of_filter in Hstored. by destruct Hstored.
  - rewrite Hs. apply lookup_insert_eq.
  - by rewrite Hd.
  - by rewrite Hd.
Qed.

(** ** Preselected sites *)

Lemma first_index_Some {A} (test : A → bool) (l : list A) (i : nat) :
  first_index test l = Some i →
  ∃ x, l !! i = Some x ∧ test x = true
       ∧ ∀ j y, j < i → l !! j = Some y → test y = false.
Proof.
  revert i. induction l as [|x l IH]; intros i Hi; [done|]. cbn in Hi.
  destruct (test x) eqn:Hx.
  - injection Hi as <-. exists x. split; [done|]. split; [done|]. lia.
  - destruct (first_index test l) as [k|]; [|done]. injection Hi as <-.
    destruct (IH k eq_refl) as (y & Hy & Hty & Hbefore).
    exists y. split; [done|]. split; [done|].
    intros [|j] z Hj Hz; cbn in Hz.
    + by injection Hz as <-.
    + eapply Hbefore; [|done]. lia.
Qed.

Lemma first_index_None {A} (test : A → bool) (l : list A) :
  first_index test l = None ↔ ∀ x, x ∈ l → test x = false.
Proof.
  induction l as [|x l IH]; cbn.
  - split; [|done]. intros _ x Hx. by apply elem_of_nil in Hx.
  - destruct (test x) eqn:Hx.
    + split; [done|]. intros Hall. specialize (Hall x (list_elem_of_here _ _)).
      congruence.
    + destruct (first_index test l) as [k|] eqn:Hk; cbn.
      * split; [done|]. intros Hall.
        assert (Hnone : Some k = None); [|done].
        apply IH. intros y Hy. apply Hall. by right.
      * split; [|done]. intros _ y [->|Hy]%elem_of_cons; [done|].
        by apply (proj1 IH).
Qed.

(** X7. The site preselected for a loaded record is the first option equal
    to the record's full site name; when the registry has no such option,
    the first option of the list is preselected instead. *)
Theorem site_index_of_spec (full : string) (temp_site_options : list string) :
  (full ∈ temp_site_options →
     temp_site_options !! site_index_of full temp_site_options = Some full
     ∧ ∀ j, j < site_index_of full temp_site_options →
            temp_site_options !! j ≠ Some full)
  ∧ (full ∉ temp_site_options → site_index_of full temp_site_options = 0).
Proof.
  unfold site_index_of.
  destruct (first_index _ temp_site_options) as [i|] eqn:Hi; cbn.
  - apply first_index_Some in Hi as (x & Hx & Htest & Hbefore).
    apply bool_decide_eq_true in Htest. subst x. split.
    + intros _. split; [done|]. intros j Hj Hfull.
      specialize (Hbefore j full Hj Hfull). by apply bool_decide_eq_false in Hbefore.
    + intros Hnot. destruct Hnot. by eapply list_elem_of_lookup_2.
  - split; [|done]. intros Hin.
    pose proof (proj1 (first_index_None _ _) Hi full Hin) as Htest.
    by apply bool_decide_eq_false in Htest.
Qed.

(** X8. The site preselected in the edit form of the record list: for a
    stored value that is not a legacy token and is a full name of the
    registry, it is the first registry entry with that full name; when no
    entry matches, by name or through the legacy mapping, it is entry 0. *)
Theorem current_site_idx_spec (mapping : gmap string string)
    (registry : list (string * string)) (row_site : string) :
  (row_site ∉ ["Site 1"; "Site 2"; "Site 3"] → row_site ∈ registry.*1 →
     registry.*1 !! current_site_idx mapping registry row_site = Some row_site)
  ∧ ((∀ entry, entry ∈ registry →
        row_site ≠ entry.1
        ∧ ¬ (row_site ∈ ["Site 1"; "Site 2"; "Site 3"]
             ∧ mapping !! row_site = Some entry.2)) →
     current_site_idx mapping registry row_site = 0).
Proof.
  unfold current_site_idx.
  destruct (first_index _ registry) as [i|] eqn:Hi; cbn.
  - apply first_index_Some in Hi as (entry & Hentry & Htest & _). split.
    + intros Hlegacy _. rewrite list_lookup_fmap, Hentry. cbn. f_equal.
      apply orb_true_iff in Htest as [Hname|Hmapped].
      * by apply bool_decide_eq_true in Hname.
      * apply andb_true_iff in Hmapped as [Hin _].
        by apply bool_decide_eq_true in Hin.
    + intros Hnone. apply list_elem_of_lookup_2 in Hentry.
      destruct (Hnone entry Hentry) as [Hname Hmapped].
      apply orb_true_iff in Htest as [Ht|Ht].
      * by apply bool_decide_eq_true in Ht.
      * apply andb_true_iff in Ht as [Hin Hmap].
        apply bool_decide_eq_true in Hin. apply bool_decide_eq_true in Hmap.
        by destruct Hmapped.
  - split; [|done]. intros Hlegacy [entry [-> Hin]]%list_elem_of_fmap.
    pose proof (proj1 (first_index_None _ _) Hi entry Hin) as Htest.
    apply orb_false_iff in Htest as [Hname _].
    by apply bool_decide_eq_false in Hname.
Qed.

(** ** Stored names, full names and display names *)

Ltac elem_of_literal :=
  cbn; repeat first [apply list_elem_of_here | apply list_elem_of_further].

Lemma db_site_name_cases (s : string) :
  (s = "Blue River at Silverthorne Pavilion- 196" ∧ db_site_name s = "Site 1")
  ∨ (s = "Snake River KSS- 52" ∧ db_site_name s = "Site 2")
  ∨ (s = "Swan River Reach A- 1007" ∧ db_site_name s = "Site 3")
  ∨ ((s ∉ default_sites.*1) ∧ db_site_name s = s).
Proof.
  destruct (decide (s = "Blue River at Silverthorne Pavilion- 196")) as [->|H1];
    [by left|].
  destruct (decide (s = "Snake River KSS- 52")) as [->|H2]; [right; left; done|].
  destruct (decide (s = "Swan River Reach A- 1007")) as [->|H3];
    [right; right; left; done|].
  right; right; right. split.
  - cbn. rewrite !elem_of_cons, elem_of_nil. by intros [?|[?|[?|?]]].
  - unfold db_site_name, site_name_mapping. cbn.
    by rewrite !lookup_insert_ne, lookup_empty by done.
Qed.

Lemma full_site_name_cases (s : string) :
  (s = "Site 1" ∧ full_site_name s = "Blue River at Silverthorne Pavilion- 196")
  ∨ (s = "Site 2" ∧ full_site_name s = "Snake River KSS- 52")
  ∨ (s = "Site 3" ∧ full_site_name s = "Swan River Reach A- 1007")
  ∨ ((s ∉ legacy_short_names.*1) ∧ full_site_name s = s).
Proof.
  destruct (decide (s = "Site 1")) as [->|H1]; [by left|].
  destruct (decide (s = "Site 2")) as [->|H2]; [right; left; done|].
  destruct (decide (s = "Site 3")) as [->|H3]; [right; right; left; done|].
  right; right; right. split.
  - cbn. rewrite !elem_of_cons, elem_of_nil. by intros [?|[?|[?|?]]].
  - unfold full_site_name, full_names_of_legacy. cbn.
    by rewrite !lookup_insert_ne, lookup_empty by done.
Qed.

(** X9. The two hard-coded dictionaries undo each other: a site chosen in
    the form, stored and loaded back for editing comes back under the name
    it was chosen by, unless that name is itself a legacy token; and a
    stored value survives being loaded and saved again, unless it is one
    of the three hard-coded full names. *)
Theorem site_names_round_trip (s : string) :
  (s ∉ legacy_short_names.*1 → full_site_name (db_site_name s) = s)
  ∧ (s ∉ default_sites.*1 → db_site_name (full_site_name s) = s).
Proof.
  split.
  - intros Hs.
    destruct (db_site_name_cases s) as [[-> ->]|[[-> ->]|[[-> ->]|[_ ->]]]];
      [done..|].
    destruct (full_site_name_cases s) as [[-> _]|[[-> _]|[[-> _]|[_ ->]]]];
      [destruct Hs; elem_of_literal..|done].
  - intros Hs.
    destruct (full_site_name_cases s) as [[-> ->]|[[-> ->]|[[-> ->]|[_ ->]]]];
      [done..|].
    destruct (db_site_name_cases s) as [[-> _]|[[-> _]|[[-> _]|[_ ->]]]];
      [destruct Hs; elem_of_literal..|done].
Qed.

Lemma site_mapping_registry (registry : list (string * string)) (k : string) :
  k ∉ legacy_short_names.*1 →
  site_mapping registry !! k = dict_update ∅ registry !! k.
Proof.
  intros Hk. unfold site_mapping. cbn in *.
  apply not_elem_of_cons in Hk as [H1 Hk].
  apply not_elem_of_cons in Hk as [H2 Hk].
  apply not_elem_of_cons in Hk as [H3 _].
  by rewrite !lookup_insert_ne by done.
Qed.

(** X10. What the chart shows for a record entered through the form.  A
    site chosen under one of the three hard-coded full names is shown under
    the hard-coded short name, whatever the registry says its short name
    is; any other site is shown under the short name the registry gives its
    full name, unless the full name is a legacy token. *)
Theorem entered_site_display (registry : list (string * string))
    (selected short : string) :
  (selected ∈ default_sites.*1 →
     (selected, view_data_site_abbrev (site_mapping registry) (db_site_name selected))
     ∈ default_sites)
  ∧ (selected ∉ default_sites.*1 → selected ∉ legacy_short_names.*1 →
     dict_update ∅ registry !! selected = Some short →
     view_data_site_abbrev (site_mapping registry) (db_site_name selected) = short).
Proof.
  destruct (site_mapping_legacy registry) as (H1 & H2 & H3).
  unfold view_data_site_abbrev. split.
  - intros Hin.
    destruct (db_site_name_cases selected) as [[-> ->]|[[-> ->]|[[-> ->]|[Hnot _]]]];
      [rewrite H1|rewrite H2|rewrite H3|done]; elem_of_literal.
  - intros Hnot Hlegacy Hshort.
    destruct (db_site_name_cases selected) as [[-> _]|[[-> _]|[[-> _]|[_ ->]]]];
      [destruct Hnot; elem_of_literal..|].
    by rewrite site_mapping_registry, Hshort.
Qed.

(** ** Adding a site *)

Lemma dict_update_snoc (m : gmap string string) (pairs : list (string * string))
    (k v : string) :
  dict_update m (pairs ++ [(k, v)]) !! k = Some v.
Proof.
  unfold dict_update. rewrite foldl_app. cbn. apply lookup_insert_eq.
Qed.

(** X11. A site is added only from a complete form and a store that takes
    the row: with the full name, the short name or the description left
    empty, or when the insert raises, the database is left as it was and
    an error is reported, without a rerun. *)
Theorem add_new_site_rejected (f : site_form) (w : world) :
  (filled (new_full_name f) && filled (new_short_name f)
     && filled (new_description f) = false
   ∨ ∃ e, (insert_site f w).1 = Raise e) →
  (add_new_site f w).1 = Ok ()
  ∧ db (add_new_site f w).2 = db w
  ∧ session (add_new_site f w).2 = session w
  ∧ ∃ text, notices (add_new_site f w).2 = notices w ++ [Error text].
Proof.
  intros Hwhy. unfold add_new_site.
  destruct (filled (new_full_name f) && filled (new_short_name f)
            && filled (new_description f)) eqn:Hform.
  - destruct Hwhy as [?|[e He]]; [done|].
    destruct (request_world
                (λ d, table "sites" (sites d) (λ rows,
                   ((), set_sites (rows ++ [SiteRow (new_full_name f)
                                                    (new_short_name f)]) d))) w)
      as (Hs & _ & Hn & _ & Hd).
    fold (insert_site f) in Hs, Hn, Hd. specialize (Hd e He).
    unfold report, mbind, M_bind, try_, say.
    destruct (insert_site f w) as [[[]|e'|] w1]; cbn in *; try done.
    rewrite Hs, Hd, Hn. eauto.
  - unfold say. cbn. eauto.
Qed.

(** X12. Once a site has been added to a reachable [sites] table, the
    registry read by [get_sites] is the table itself, ending with the new
    pair, and no longer the hard-coded list, also when the table was empty
    before; and the chart shows the new full name under its short name,
    unless the full name is a legacy token. *)
Theorem added_site_enters_registry (f : site_form) (w : world)
    (rows : list site_row) :
  filled (new_full_name f) && filled (new_short_name f)
    && filled (new_description f) = true →
  fault (db w) = None → sites (db w) = Some rows →
  let registry := ((λ s, (full_name s, short_name s)) <$> rows)
                  ++ [(new_full_name f, new_short_name f)] in
  (get_sites (add_new_site f w).2).1 = Ok registry
  ∧ ((new_full_name f) ∉ legacy_short_names.*1 →
     view_data_site_abbrev (site_mapping registry) (new_full_name f)
     = new_short_name f).
Proof.
  intros Hform Hf Hrows registry. split.
  - unfold add_new_site. rewrite Hform.
    unfold report, mbind, M_bind, try_, insert_site, request, table, say, rerun.
    rewrite Hf, Hrows. cbn [fst snd].
    unfold get_sites, mbind, M_bind, try_, select_sites, execute, table.
    cbn [db fault sites set_sites]. rewrite Hf. cbn [fst snd].
    unfold registry. destruct rows as [|r rows']; cbn; [done|].
    by rewrite fmap_app.
  - intros Hlegacy. unfold view_data_site_abbrev.
    rewrite site_mapping_registry by done.
    unfold registry. by rewrite dict_update_snoc.
Qed.

(** ** Adding an administrator *)

Lemma create_admin_account_valid (sign_up refusal : option string)
    (admin_email admin_password confirm_password : string) :
  valid_admin_form admin_email admin_password confirm_password →
  create_admin_account sign_up refusal admin_email admin_password confirm_password
  = match sign_up with
    | None =>
        try_ (insert_approved_admin refusal admin_email);;
        say (Success ("✅ Admin account created successfully for " +:+ admin_email));;
        say (Info "They can now log in with the provided credentials.")
    | Some e =>
        if contains "User already registered" e
        then report "User exists but couldn't add to admin list: "
               (existing_admin ← select_admin_by_email admin_email;
                match existing_admin with
                | _ :: _ =>
                    approve_admin_by_email admin_email;;
                    say (Success ("✅ " +:+ admin_email
                                  +:+ " admin status updated successfully!"))
                | [] =>
                    insert_approved_admin refusal admin_email;;
                    say (Success ("✅ " +:+ admin_email
                                  +:+ " added to admin list successfully!"))
                end;;
                say (Info "They can now log in with their existing credentials."))
        else say (Error ("Error creating admin account: " +:+ e))
    end.
Proof.
  intros (Hmail & Hpass & ->). unfold create_admin_account.
  rewrite Hmail, Hpass. cbn [negb orb]. by rewrite String.eqb_refl.
Qed.

(** The [pending_admins] table after the form went through. *)
Lemma create_admin_account_table (sign_up : option string)
    (admin_email admin_password confirm_password : string) (w : world)
    (rows : list admin_row) :
  valid_admin_form admin_email admin_password confirm_password →
  (sign_up = None ∨ ∃ e, sign_up = Some e ∧ contains "User already registered" e = true) →
  fault (db w) = None → pending_admins (db w) = Some rows →
  let w' := (create_admin_account sign_up None admin_email admin_password
               confirm_password w).2 in
  fault (db w') = None
  ∧ ∃ rows', pending_admins (db w') = Some rows'
             ∧ AdminRow admin_email "approved" ∈ rows'.
Proof.
  intros Hvalid Hsign Hf Hrows. rewrite create_admin_account_valid by done.
  destruct Hsign as [->|(e & -> & Hcontains)].
  - unfold mbind, M_bind, try_, insert_approved_admin, request, table, say.
    rewrite Hf, Hrows. cbn. split; [done|]. eexists. split; [done|].
    apply elem_of_app. right. left.
  - rewrite Hcontains.
    unfold report, mbind, M_bind, try_, select_admin_by_email, request, table.
    rewrite Hf, Hrows. cbn [fst snd session db trace notices].
    destruct (filter _ rows) as [|hit hits] eqn:Hhits.
    + unfold insert_approved_admin, request, table, say, mbind, M_bind.
      cbn [db]. rewrite Hf, Hrows. cbn. split; [done|]. eexists. split; [done|].
      apply elem_of_app. right. left.
    + unfold approve_admin_by_email, request, table, say, mbind, M_bind.
      cbn [db]. rewrite Hf, Hrows. cbn. split; [done|]. eexists. split; [done|].
      assert (Hhit : hit ∈ filter (λ r, email r = admin_email) rows)
        by (rewrite Hhits; left).
      apply list_elem_of_filter in Hhit as [Hmail Hin].
      apply list_elem_of_fmap. exists hit. split; [|done].
      rewrite decide_True by done. by rewrite Hmail.
Qed.

(** X13. Grant, then check.  After the form to add an administrator went
    through with a filled, matching form, a reachable [pending_admins]
    table that accepts the insert and an account that was created or
    already existed, [is_admin] answers true for that address. *)
Theorem created_admin_is_admin (ADMIN_EMAIL : string) (sign_up : option string)
    (admin_email admin_password confirm_password : string) (w : world)
    (rows : list admin_row) :
  valid_admin_form admin_email admin_password confirm_password →
  (sign_up = None ∨ ∃ e, sign_up = Some e ∧ contains "User already registered" e = true) →
  fault (db w) = None → pending_admins (db w) = Some rows →
  (is_admin ADMIN_EMAIL admin_email
     (create_admin_account sign_up None admin_email admin_password
        confirm_password w).2).1
  = Ok true.
Proof.
  intros Hvalid Hsign Hf Hrows.
  destruct (create_admin_account_table sign_up admin_email admin_password
              confirm_password w rows Hvalid Hsign Hf Hrows)
    as (Hf' & rows' & Hrows' & Hin).
  destruct (decide (admin_email = ADMIN_EMAIL)) as [Heq|Hne].
  { unfold is_admin. by rewrite decide_True. }
  rewrite (is_admin_lookup _ _ _ rows') by done. f_equal.
  apply bool_decide_eq_true. intros Hnil.
  by eapply (filter_nil_not_elem_of _ _ (AdminRow admin_email "approved")) in Hnil.
Qed.

(** The answer of [is_admin] depends on the database alone. *)
Lemma is_admin_outcome_db (ADMIN_EMAIL e : string) (w1 w2 : world) :
  db w1 = db w2 → (is_admin ADMIN_EMAIL e w1).1 = (is_admin ADMIN_EMAIL e w2).1.
Proof.
  intros Hdb. unfold is_admin. destruct (decide (e = ADMIN_EMAIL)); [done|].
  unfold select_approved_admin, mbind, M_bind, try_, execute, table, mret, M_ret.
  rewrite Hdb. destruct (fault (db w2)); [done|].
  destruct (pending_admins (db w2)); [|done]. cbn. by destruct (bool_decide _).
Qed.

(** X14. The success notice does not depend on the grant.  When the account
    is created but the insert into [pending_admins] raises, for whatever
    reason (no such table, the store down, or this insert turned down on
    its own), the form still reports success, the database is unchanged,
    and [is_admin] answers for that address exactly as it did before. *)
Theorem created_admin_without_grant (ADMIN_EMAIL : string) (refusal : option string)
    (admin_email admin_password confirm_password : string) (w : world) (e : string) :
  valid_admin_form admin_email admin_password confirm_password →
  (insert_approved_admin refusal admin_email w).1 = Raise e →
  let w' := (create_admin_account None refusal admin_email admin_password
               confirm_password w).2 in
  notices w'
  = notices w
    ++ [Success ("✅ Admin account created successfully for " +:+ admin_email);
        Info "They can now log in with the provided credentials."]
  ∧ db w' = db w
  ∧ (is_admin ADMIN_EMAIL admin_email w').1 = (is_admin ADMIN_EMAIL admin_email w).1.
Proof.
  intros Hvalid Hraise. rewrite create_admin_account_valid by done.
  assert (Hins : insert_approved_admin refusal admin_email w = (Raise e, w)).
  { destruct (request_world
                (λ d, match refusal with
                      | Some reason => inl reason
                      | None =>
                          table "pending_admins" (pending_admins d) (λ rows,
                            ((), set_pending_admins
                                   (rows ++ [AdminRow admin_email "approved"]) d))
                      end) w) as (Hs & Ht & Hn & _ & Hd).
    fold (insert_approved_admin refusal admin_email) in Hs, Ht, Hn, Hd.
    specialize (Hd e Hraise).
    destruct (insert_approved_admin refusal admin_email w) as [o w1].
    cbn in *. subst o. f_equal. destruct w as [s d t n], w1 as [s1 d1 t1 n1].
    cbn in *. by subst. }
  unfold mbind at 1 2, M_bind, try_. rewrite Hins. unfold say. cbn [fst snd].
  cbn [session db trace notices]. rewrite <- app_assoc. cbn [app].
  split; [done|]. split; [done|]. by apply is_admin_outcome_db.
Qed.

(** X15. No grant without a usable form or account: when the e-mail or the
    password is empty, when the passwords differ, or when the sign-up
    fails for a reason other than the account existing, the database and
    the session are unchanged and one error is reported. *)
Theorem create_admin_account_rejected (sign_up refusal : option string)
    (admin_email admin_password confirm_password : string) (w : world) :
  (¬ valid_admin_form admin_email admin_password confirm_password
   ∨ ∃ e, sign_up = Some e ∧ contains "User already registered" e = false) →
  ∃ text,
    create_admin_account sign_up refusal admin_email admin_password
      confirm_password w
    = (Ok (), World (session w) (db w) (trace w) (notices w ++ [Error text])).
Proof.
  intros Hwhy. unfold create_admin_account.
  destruct (filled admin_email) eqn:Hmail; cbn [negb orb]; [|unfold say; eauto].
  destruct (filled admin_password) eqn:Hpass; cbn [negb orb]; [|unfold say; eauto].
  destruct (String.eqb admin_password confirm_password) eqn:Hsame; cbn [negb];
    [|unfold say; eauto].
  apply String.eqb_eq in Hsame.
  destruct Hwhy as [Hinvalid|(e & -> & Hother)]; [by destruct Hinvalid|].
  rewrite Hother. unfold say. eauto.
Qed.

(** ** Editing and deleting from the record list *)

(** X16. A save from the edit form of the record list rewrites every row
    with the edited id and nothing else: the table keeps its rows in
    order, with their ids and their owners; rows of other ids are
    untouched; a row of the edited id gets the chosen site under its stored
    name, the date, and for each numeric field null under N/A and the
    input's number otherwise; and the form is closed. *)
Theorem edit_save_keeps_identity (i : Z) (f : edit_form) (w : world)
    (rows : list wq_row) :
  fault (db w) = None → water_quality (db w) = Some rows →
  ∃ rows',
    water_quality (db (edit_data_save i f w).2) = Some rows'
    ∧ row_id <$> rows' = row_id <$> rows
    ∧ (user_id ∘ row_data) <$> rows' = (user_id ∘ row_data) <$> rows
    ∧ (∀ k r, rows !! k = Some r → row_id r ≠ i → rows' !! k = Some r)
    ∧ (∀ k r p, rows' !! k = Some r → row_id r = i →
         site (row_data r) = db_site_name (new_site f)
         ∧ date (row_data r) = strftime_iso (new_date f)
         ∧ cell p (row_data r) = entered (edit_field f p))
    ∧ session (edit_data_save i f w).2 !! editing_key i = Some (VBool false).
Proof.
  intros Hf Hrows.
  unfold edit_data_save, report, edit_save, mbind, M_bind, try_, update_wq_columns,
    request, table, say, session_set, rerun.
  rewrite Hf, Hrows. cbn [fst snd session db with_session water_quality set_water_quality].
  eexists. split; [done|].
  split; [|split; [|split; [|split]]].
  - rewrite <- list_fmap_compose. apply list_fmap_ext. intros k r _. cbn.
    by destruct (decide _).
  - rewrite <- list_fmap_compose. apply list_fmap_ext. intros k r _. cbn.
    by destruct (decide _).
  - intros k r Hr Hne. rewrite list_lookup_fmap, Hr. cbn.
    by rewrite decide_False.
  - intros k r p Hr Hid. rewrite list_lookup_fmap in Hr.
    destruct (rows !! k) as [r0|]; [|done]. cbn in Hr. injection Hr as <-.
    destruct (decide (row_id r0 = i)) as [_|Hne]; [by destruct p|].
    by destruct Hne.
  - apply lookup_insert_eq.
Qed.

(** X17. When the update of the edit form raises, nothing is written: the
    database and the session are as before, so the form stays open, and an
    error is reported. *)
Theorem edit_save_failure_keeps_form (i : Z) (f : edit_form) (w : world) (e : string) :
  (update_wq_columns i f w).1 = Raise e →
  edit_data_save i f w
  = (Ok (), World (session w) (db w) (trace w)
                  (notices w ++ [Error ("Error loading data: " +:+ e)])).
Proof.
  intros Hraise.
  unfold edit_data_save, report, edit_save, mbind, M_bind, try_.
  unfold update_wq_columns, request, table in *. destruct w as [s d t n].
  cbn in *. destruct (fault d); [by injection Hraise as ->|].
  destruct (water_quality d); [done|]. by injection Hraise as <-.
Qed.

(** X18. Two delete clicks on a record, from an unset flag and with the
    store reachable, remove exactly the rows of that id: the other rows
    stay, in order. *)
Theorem delete_twice_removes_row (i : Z) (w : world) (rows : list wq_row) :
  shown (confirm_delete_key i) w = false →
  fault (db w) = None → water_quality (db w) = Some rows →
  water_quality (db (delete_twice i w)) = Some (filter (λ r, row_id r ≠ i) rows).
Proof.
  unfold shown. intros Hflag Hf Hrows. unfold delete_twice.
  rewrite (edit_data_delete_unarmed i w) by done. cbn [snd].
  unfold edit_data_delete, delete_click, session_truthy, mbind, M_bind, try_,
    session_get, mret, M_ret.
  cbn [session fst snd]. rewrite lookup_insert_eq. cbn [from_option truthy].
  unfold delete_wq, execute, table. cbn [db]. by rewrite Hf, Hrows.
Qed.

(** X19. A confirmed delete that raises removes nothing and keeps the
    confirmation: the database and the session are as before, the flag
    included, so that the next single click retries the delete. *)
Theorem failed_delete_stays_armed (i : Z) (w : world) (e : string) :
  shown (confirm_delete_key i) w = true →
  (delete_wq i w).1 = Raise e →
  db (edit_data_delete i w).2 = db w
  ∧ session (edit_data_delete i w).2 = session w
  ∧ shown (confirm_delete_key i) (edit_data_delete i w).2 = true
  ∧ last (notices (edit_data_delete i w).2) = Some (Error ("Error loading data: " +:+ e)).
Proof.
  unfold shown. intros Hflag Hraise.
  unfold edit_data_delete, delete_click, session_truthy, mbind, M_bind, try_,
    session_get, mret, M_ret.
  rewrite Hflag.
  unfold delete_wq, execute, table in *.
  destruct (fault (db w)); cbn in *.
  - injection Hraise as ->. by rewrite last_snoc.
  - destruct (water_quality (db w)); [done|]. cbn in *.
    injection Hraise as <-. by rewrite last_snoc.
Qed.

(** ** The processed frame *)

(** X20. Preprocessing a chart only ever changes the plotted column: the
    processed frame has the stored rows in their order, each with its id,
    site, date and abbreviation. *)
Theorem df_processed_keeps_columns (mapping : gmap string string) (p : param)
    (rows : list wq_row) :
  df_identity <$> df_processed mapping p rows
  = (λ r, (row_id r, site (row_data r), date (row_data r),
           view_data_site_abbrev mapping (site (row_data r)))) <$> rows.
Proof.
  unfold df_processed. destruct (zero_not_meaningful p).
  - rewrite blank_sites_fold. unfold frame.
    rewrite <- !list_fmap_compose. apply list_fmap_ext. intros k r _. cbn.
    by destruct (decide _).
  - unfold frame. rewrite <- list_fmap_compose. by apply list_fmap_ext.
Qed.

(** ** The header of the public page *)

Lemma initialized_lookup (s : gmap string value) (k : string) :
  from_option truthy false (initialized s !! k) = from_option truthy false (s !! k).
Proof.
  unfold initialized.
  destruct (s !! "show_login") as [v1|] eqn:H1.
  - destruct (s !! "show_site_info") as [v2|] eqn:H2; [done|].
    destruct (decide (k = "show_site_info")) as [->|Hk].
    + by rewrite lookup_insert_eq, H2.
    + by rewrite lookup_insert_ne.
  - rewrite lookup_insert_ne by done.
    destruct (s !! "show_site_info") as [v2|] eqn:H2.
    + destruct (decide (k = "show_login")) as [->|Hk].
      * by rewrite lookup_insert_eq, H1.
      * by rewrite lookup_insert_ne.
    + destruct (decide (k = "show_site_info")) as [->|Hk].
      * by rewrite lookup_insert_eq, H2.
      * rewrite lookup_insert_ne by done.
        destruct (decide (k = "show_login")) as [->|Hk'].
        -- by rewrite lookup_insert_eq, H1.
        -- by rewrite lookup_insert_ne.
Qed.

Lemma initialized_is_Some (s : gmap string value) :
  is_Some (initialized s !! "show_login")
  ∧ is_Some (initialized s !! "show_site_info").
Proof.
  unfold initialized.
  destruct (s !! "show_login") as [v1|] eqn:H1.
  - destruct (s !! "show_site_info") as [v2|] eqn:H2.
    + rewrite H1, H2. eauto.
    + rewrite lookup_insert_eq, lookup_insert_ne, H1 by done. eauto.
  - rewrite lookup_insert_ne by done.
    destruct (s !! "show_site_info") as [v2|] eqn:H2.
    + rewrite lookup_insert_eq, lookup_insert_ne, H2 by done. eauto.
    + rewrite lookup_insert_eq, lookup_insert_ne, lookup_insert_eq by done. eauto.
Qed.

Lemma header_run (pressed : header_button) (w : world) :
  header pressed w
  = (Ok (),
     World
       match pressed with
       | SiteInfoButton =>
           <["show_login" := VBool false]>
             (<["show_site_info" := VBool (negb (shown "show_site_info" w))]>
                (initialized (session w)))
       | StaffLoginButton =>
           <["show_site_info" := VBool false]>
             (<["show_login" := VBool (negb (shown "show_login" w))]>
                (initialized (session w)))
       | NoHeaderButton => initialized (session w)
       end
       (db w) (trace w) (notices w)).
Proof.
  destruct w as [s d t n].
  unfold header, initialized, shown, session_init, session_toggle, mbind, M_bind,
    session_get, session_set, with_session, mret, M_ret.
  cbn [session db trace notices fst snd].
  destruct (s !! "show_login") as [v1|] eqn:H1; cbn [session db trace notices].
  - destruct (s !! "show_site_info") as [v2|] eqn:H2; cbn [session db trace notices].
    + destruct pressed; cbn [session db trace notices]; by rewrite ?H1, ?H2.
    + destruct pressed; cbn [session db trace notices];
        by rewrite ?lookup_insert_eq, ?lookup_insert_ne, ?H1 by done.
  - rewrite lookup_insert_ne by done.
    destruct (s !! "show_site_info") as [v2|] eqn:H2; cbn [session db trace notices].
    + destruct pressed; cbn [session db trace notices];
        by rewrite ?lookup_insert_eq, ?lookup_insert_ne, ?H2 by done.
    + destruct pressed; cbn [session db trace notices];
        by rewrite ?lookup_insert_eq, ?lookup_insert_ne, ?lookup_insert_eq by done.
Qed.

Lemma shown_insert (k k' : string) (v : value) (s : gmap string value)
    (d : database) (t : list db_call) (n : list notice) :
  shown k (World (<[k' := v]> s) d t n)
  = if decide (k' = k) then truthy v else shown k (World s d t n).
Proof.
  unfold shown. cbn [session]. destruct (decide (k' = k)) as [->|Hne].
  - by rewrite lookup_insert_eq.
  - by rewrite lookup_insert_ne.
Qed.

Lemma shown_initialized (k : string) (w : world) :
  shown k (World (initialized (session w)) (db w) (trace w) (notices w)) = shown k w.
Proof. unfold shown. cbn [session]. apply initialized_lookup. Qed.

(** X22. What a header button does: the run never raises; the pressed
    button flips its own panel and closes the other one; a run without a
    press leaves both panels as they were. *)
Theorem header_toggles (w : world) :
  (∀ pressed, (header pressed w).1 = Ok ())
  ∧ shown "show_site_info" (header SiteInfoButton w).2 = negb (shown "show_site_info" w)
  ∧ shown "show_login" (header SiteInfoButton w).2 = false
  ∧ shown "show_login" (header StaffLoginButton w).2 = negb (shown "show_login" w)
  ∧ shown "show_site_info" (header StaffLoginButton w).2 = false
  ∧ shown "show_login" (header NoHeaderButton w).2 = shown "show_login" w
  ∧ shown "show_site_info" (header NoHeaderButton w).2 = shown "show_site_info" w.
Proof.
  split; [intros pressed; by rewrite header_run|].
  rewrite !header_run. cbn [snd].
  rewrite !shown_insert, !shown_initialized.
  repeat split.
Qed.

(** X23. The two panels of the public page are never open together: a run
    in which a button is pressed leaves at most one open, whatever the
    session held, and no sequence of runs opens both once they are not
    both open. *)
Theorem header_panels_exclusive (w : world) :
  (∀ pressed, pressed ≠ NoHeaderButton → both_panels (header pressed w).2 = false)
  ∧ (∀ presses, both_panels w = false → both_panels (header_runs presses w) = false).
Proof.
  assert (Hstep : ∀ pressed w0,
            pressed ≠ NoHeaderButton ∨ both_panels w0 = false →
            both_panels (header pressed w0).2 = false).
  { intros pressed w0 Hwhy. unfold both_panels.
    destruct (header_toggles w0) as (_ & Hi1 & Hl1 & Hl2 & Hi2 & Hl3 & Hi3).
    destruct pressed.
    - by rewrite Hl1.
    - rewrite Hi2. apply andb_false_r.
    - rewrite Hl3, Hi3. by destruct Hwhy. }
  split; [intros pressed Hpressed; apply Hstep; by left|].
  intros presses. revert w. induction presses as [|pressed presses IH]; intros w Hw.
  - done.
  - cbn. apply IH, Hstep. by right.
Qed.

(** ** The properties above on sample data *)

Lemma saved_entry_is_found_witness :
  (dashboard_lookup None "Snake River KSS- 52" (Some sample_day)
     (dashboard_save "volunteer-7" "Snake River KSS- 52" sample_day sample_form
        winter_world).2).1
  = Ok (Some (WqRow 2 (build_payload "volunteer-7" "Snake River KSS- 52" sample_day
                         sample_form))).
Proof.
  by apply (saved_entry_is_found "volunteer-7" "Snake River KSS- 52" sample_day
              sample_form winter_world [january_row]).
Defined.

Lemma second_save_updates_in_place_witness :
  water_quality
    (db (dashboard_save "volunteer-7" "Snake River KSS- 52" sample_day
           (FormInputs (λ _, NumberField (9 # 1)%Q false) "")
           (dashboard_save "volunteer-7" "Snake River KSS- 52" sample_day sample_form
              winter_world).2).2)
  = Some [january_row;
          WqRow 2 (build_payload "volunteer-7" "Snake River KSS- 52" sample_day
                     (FormInputs (λ _, NumberField (9 # 1)%Q false) ""))].
Proof.
  apply (second_save_updates_in_place "volunteer-7" "Snake River KSS- 52" sample_day
           sample_form (FormInputs (λ _, NumberField (9 # 1)%Q false) "")
           winter_world [january_row]); try done.
  intros r Hr. apply list_elem_of_singleton in Hr as ->. done.
Defined.

Lemma failed_lookup_saves_as_new_witness :
  water_quality
    (db (dashboard_save_across "volunteer-7" "Blue River at Silverthorne Pavilion- 196"
           sample_day sample_form
           (unreachable_world (PendingSave (row_data january_row) None "" ""))
           (db winter_world)))
  = Some [january_row;
          WqRow 2 (build_payload "volunteer-7" "Blue River at Silverthorne Pavilion- 196"
                     sample_day sample_form)].
Proof.
  by apply (failed_lookup_saves_as_new "volunteer-7"
              "Blue River at Silverthorne Pavilion- 196" sample_day sample_form
              (unreachable_world (PendingSave (row_data january_row) None "" ""))
              (db winter_world) [january_row] "connection refused").
Defined.

Lemma success_notice_shown_once_witness :
  let w := World {["pending_wq_save" :=
                     VPending (PendingSave (row_data january_row) (Some 1%Z)
                                 "Site 1" "01/15/2024")]}
                 (db winter_world) [] [] in
  last (notices (confirm_then_render w)) = Some (Success "Data updated successfully!")
  ∧ shown "data_submitted" (confirm_then_render w) = false
  ∧ session (confirm_then_render w) !! "success_message" = None
  ∧ show_success (confirm_then_render w) = (Ok (), confirm_then_render w).
Proof.
  intros w.
  refine (success_notice_shown_once w
            (PendingSave (row_data january_row) (Some 1%Z) "Site 1" "01/15/2024")
            [january_row] _ eq_refl eq_refl).
  apply lookup_singleton_eq.
Defined.

Lemma handoff_consumes_click_witness :
  let w := World {["clicked_id" := VInt 2]} (db duplicated_world) [] [] in
  session (dashboard_handoff default_options w).2
  = delete "clicked_date" (delete "clicked_site" (delete "clicked_id" (session w)))
  ∧ dashboard_handoff default_options duplicated_world
    = (Ok no_prefill, duplicated_world).
Proof.
  intros w. split.
  - by apply (handoff_consumes_click default_options w).
  - by apply (handoff_consumes_click default_options duplicated_world).
Defined.

Lemma click_then_handoff_loads_row_witness :
  (click_then_handoff (site_mapping default_sites)
     (df_processed (site_mapping default_sites) Ph duplicated_rows)
     [second_point] default_options duplicated_world).1
  = Ok (Prefill (duplicated_rows !! 1) 0 (Some "2024-01-15")).
Proof.
  refine (proj1 (click_then_handoff_loads_row (site_mapping default_sites)
            (df_processed (site_mapping default_sites) Ph duplicated_rows)
            second_point [] default_options duplicated_world
            1 "Blue River" (DfRow 2 "Site 1" "2024-01-15" "Blue River" (Some (7 # 1)%Q))
            duplicated_rows _ _ _ _ _ _ _ _));
    try (vm_compute; reflexivity); done.
Defined.

Lemma site_index_of_spec_witness :
  default_options !! site_index_of "Snake River KSS- 52" default_options
  = Some "Snake River KSS- 52"
  ∧ site_index_of "Tenmile Creek at Frisco" default_options = 0.
Proof.
  split.
  - apply (site_index_of_spec "Snake River KSS- 52" default_options).
    elem_of_literal.
  - apply (site_index_of_spec "Tenmile Creek at Frisco" default_options).
    cbn. rewrite !elem_of_cons, elem_of_nil. by intros [?|[?|[?|?]]].
Defined.

Lemma current_site_idx_spec_witness :
  default_options
    !! current_site_idx (site_mapping default_sites) default_sites "Snake River KSS- 52"
  = Some "Snake River KSS- 52"
  ∧ current_site_idx (site_mapping default_sites) default_sites "Site 4" = 0.
Proof.
  split.
  - apply (current_site_idx_spec (site_mapping default_sites) default_sites
             "Snake River KSS- 52").
    + rewrite !elem_of_cons, elem_of_nil. by intros [?|[?|[?|?]]].
    + elem_of_literal.
  - apply (current_site_idx_spec (site_mapping default_sites) default_sites "Site 4").
    intros entry Hentry. apply list_elem_of_In in Hentry. cbn in Hentry.
    destruct Hentry as [<-|[<-|[<-|[]]]]; (split; [done|]);
      intros [Hlegacy _]; apply list_elem_of_In in Hlegacy; cbn in Hlegacy;
      by destruct Hlegacy as [?|[?|[?|[]]]].
Defined.

Lemma site_names_round_trip_witness :
  full_site_name (db_site_name "Snake River KSS- 52") = "Snake River KSS- 52"
  ∧ db_site_name (full_site_name "Site 2") = "Site 2".
Proof.
  split.
  - apply (site_names_round_trip "Snake River KSS- 52").
    cbn. rewrite !elem_of_cons, elem_of_nil. by intros [?|[?|[?|?]]].
  - apply (site_names_round_trip "Site 2").
    cbn. rewrite !elem_of_cons, elem_of_nil. by intros [?|[?|[?|?]]].
Defined.

Lemma entered_site_display_witness :
  ("Snake River KSS- 52",
   view_data_site_abbrev (site_mapping [("Snake River KSS- 52", "Snake R.")])
     (db_site_name "Snake River KSS- 52")) ∈ default_sites
  ∧ view_data_site_abbrev
      (site_mapping [("Tenmile Creek at Frisco", "Tenmile Creek")])
      (db_site_name "Tenmile Creek at Frisco") = "Tenmile Creek".
Proof.
  split.
  - apply (entered_site_display [("Snake River KSS- 52", "Snake R.")]
             "Snake River KSS- 52" "").
    elem_of_literal.
  - apply (entered_site_display [("Tenmile Creek at Frisco", "Tenmile Creek")]
             "Tenmile Creek at Frisco" "Tenmile Creek").
    + cbn. rewrite !elem_of_cons, elem_of_nil. by intros [?|[?|[?|?]]].
    + cbn. rewrite !elem_of_cons, elem_of_nil. by intros [?|[?|[?|?]]].
    + by vm_compute.
Defined.

Lemma add_new_site_rejected_witness :
  db (add_new_site (SiteForm "Tenmile Creek at Frisco" "Tenmile Creek" "")
        empty_registry_world).2 = db empty_registry_world
  ∧ db (add_new_site tenmile winter_world).2 = db winter_world.
Proof.
  split.
  - apply (add_new_site_rejected (SiteForm "Tenmile Creek at Frisco" "Tenmile Creek" "")
             empty_registry_world).
    by left.
  - apply (add_new_site_rejected tenmile winter_world).
    right. by exists "relation sites does not exist".
Defined.

Lemma added_site_enters_registry_witness :
  (get_sites empty_registry_world).1 = Ok default_sites
  ∧ (get_sites (add_new_site tenmile empty_registry_world).2).1
    = Ok [("Tenmile Creek at Frisco", "Tenmile Creek")].
Proof.
  split; [reflexivity|].
  by apply (added_site_enters_registry tenmile empty_registry_world []).
Defined.

Lemma created_admin_is_admin_witness :
  (is_admin "lead@brwg.org" "ana@brwg.org" empty_registry_world).1 = Ok false
  ∧ (is_admin "lead@brwg.org" "ana@brwg.org"
       (create_admin_account (Some "AuthApiError: User already registered") None
          "ana@brwg.org" "s3cret" "s3cret" empty_registry_world).2).1 = Ok true.
Proof.
  split; [reflexivity|].
  apply (created_admin_is_admin "lead@brwg.org"
           (Some "AuthApiError: User already registered")
           "ana@brwg.org" "s3cret" "s3cret" empty_registry_world []); try done.
  right. by eexists.
Defined.

Lemma created_admin_without_grant_witness :
  let refusal := Some "new row violates row-level security policy" in
  let w' := (create_admin_account None refusal "ana@brwg.org" "s3cret" "s3cret"
               empty_registry_world).2 in
  notices w'
  = [Success "✅ Admin account created successfully for ana@brwg.org";
     Info "They can now log in with the provided credentials."]
  ∧ db w' = db empty_registry_world
  ∧ (is_admin "lead@brwg.org" "ana@brwg.org" w').1 = Ok false.
Proof.
  intros refusal.
  exact (created_admin_without_grant "lead@brwg.org" refusal "ana@brwg.org" "s3cret"
           "s3cret" empty_registry_world "new row violates row-level security policy"
           (conj eq_refl (conj eq_refl eq_refl)) eq_refl).
Defined.

Lemma create_admin_account_rejected_witness :
  ∃ text,
    create_admin_account None None "ana@brwg.org" "s3cret" "secret"
      empty_registry_world
    = (Ok (), World ∅ (db empty_registry_world) [] [Error text]).
Proof.
  apply (create_admin_account_rejected None None "ana@brwg.org" "s3cret" "secret"
           empty_registry_world).
  left. by intros (_ & _ & ?).
Defined.

Lemma edit_save_keeps_identity_witness :
  ∃ rows',
    water_quality (db (edit_data_save 1 sample_edit winter_world).2) = Some rows'
    ∧ row_id <$> rows' = [1%Z]
    ∧ (user_id ∘ row_data) <$> rows' = ["volunteer-7"]
    ∧ session (edit_data_save 1 sample_edit winter_world).2 !! editing_key 1
      = Some (VBool false).
Proof.
  destruct (edit_save_keeps_identity 1 sample_edit winter_world [january_row]
              eq_refl eq_refl) as (rows' & Hrows & Hids & Howners & _ & _ & Hflag).
  exists rows'. by repeat split.
Defined.

Lemma edit_save_failure_keeps_form_witness :
  edit_data_save 1 sample_edit armed_unreachable_world
  = (Ok (), World (session armed_unreachable_world) (db armed_unreachable_world) []
                  [Error "Error loading data: connection refused"]).
Proof.
  by apply (edit_save_failure_keeps_form 1 sample_edit armed_unreachable_world
              "connection refused").
Defined.

Lemma delete_twice_removes_row_witness :
  water_quality (db (delete_twice 2 duplicated_world)) = Some [january_row; february_row].
Proof.
  by apply (delete_twice_removes_row 2 duplicated_world duplicated_rows).
Defined.

Lemma failed_delete_stays_armed_witness :
  db (edit_data_delete 1 armed_unreachable_world).2 = db armed_unreachable_world
  ∧ session (edit_data_delete 1 armed_unreachable_world).2
    = session armed_unreachable_world
  ∧ shown (confirm_delete_key 1) (edit_data_delete 1 armed_unreachable_world).2 = true
  ∧ last (notices (edit_data_delete 1 armed_unreachable_world).2)
    = Some (Error "Error loading data: connection refused").
Proof.
  by apply (failed_delete_stays_armed 1 armed_unreachable_world "connection refused").
Defined.

Lemma header_panels_exclusive_witness :
  both_panels (header StaffLoginButton
                 (World {["show_login" := VBool true; "show_site_info" := VBool true]}
                        (db winter_world) [] [])).2 = false
  ∧ both_panels (header_runs [SiteInfoButton; StaffLoginButton; NoHeaderButton;
                              StaffLoginButton; SiteInfoButton] winter_world) = false.
Proof.
  split.
  - by apply (header_panels_exclusive
                (World {["show_login" := VBool true; "show_site_info" := VBool true]}
                       (db winter_world) [] [])).
  - by apply (header_panels_exclusive winter_world).
Defined.
